(** * Camera / projector subsystem of arcade: a shallow embedding

    Sources embedded here:
    - [arcade/camera/controllers/simple_controller_functions.py]
    - [arcade/camera/perspective.py]
    - [arcade/camera/stack.py]

    Python floats are idealised as real numbers ([R]): every arithmetic
    operation of the source is read as the exact operation, so a statement
    "within tolerance" of the specification becomes an exact equation here.
    Exceptions are values of [exn]; code that can raise returns a [result]. *)

From Stdlib Require Import Reals Lra Psatz ZArith List.
Import ListNotations.
Open Scope R_scope.

(** ** Python tuples of floats *)

Definition Tuple2 : Type := R * R.
Definition Tuple3 : Type := R * R * R.

(** [math.radians] *)
Definition radians (deg : R) : R := deg * (PI / 180).

(** Euclidean length of a 3-tuple, [sqrt(x**2 + y**2 + z**2)]. *)
Definition magnitude (v : Tuple3) : R :=
  let '(x, y, z) := v in sqrt (x ^ 2 + y ^ 2 + z ^ 2).

(** Component-wise closeness of two 3-tuples up to [tol]. *)
Definition approx3 (tol : R) (a b : Tuple3) : Prop :=
  let '(ax, ay, az) := a in
  let '(bx, by_, bz) := b in
  Rabs (ax - bx) <= tol /\ Rabs (ay - by_) <= tol /\ Rabs (az - bz) <= tol.

(** ** Exceptions and fallible computations *)

Inductive exn : Type :=
| AttributeError
| IndexError
| TypeError
| ValueError
| ZeroDivisionError
| Exception (tag : nat).

Inductive result (A : Type) : Type :=
| Ok (a : A)
| Raise (e : exn).
Arguments Ok {A} a.
Arguments Raise {A} e.

Definition rbind {A B : Type} (m : result A) (k : A -> result B) : result B :=
  match m with
  | Ok a => k a
  | Raise e => Raise e
  end.

Declare Scope result_scope.
Delimit Scope result_scope with result.
Notation "x <- m ;; k" := (rbind m (fun x => k))
  (at level 61, m at next level, right associativity) : result_scope.

(** Python's [a / b] on floats: division by zero raises. *)
Definition pydiv (a b : R) : result R :=
  if Req_dec_T b 0 then Raise ZeroDivisionError else Ok (a / b).

(** ** pyglet.math (external dependency)

    The repository imports [Vec3], [Vec4] and [Mat4] from pyglet; the
    operations the camera code calls are modelled after pyglet 2.x.  A
    [Mat4] is a tuple of 16 floats in column-major order. *)

Module Pyglet.

Definition Vec3 : Type := Tuple3.
Definition Vec4 : Type := R * R * R * R.
Definition Mat4 : Type := list R.

(** [Vec3.normalize]: a zero-length vector is returned unchanged. *)
Definition normalize (v : Vec3) : Vec3 :=
  let d := magnitude v in
  if Req_dec_T d 0 then v
  else let '(x, y, z) := v in (x / d, y / d, z / d).

(** [Vec3.cross] *)
Definition cross (a b : Vec3) : Vec3 :=
  let '(ax, ay, az) := a in
  let '(bx, by_, bz) := b in
  (ay * bz - az * by_, az * bx - ax * bz, ax * by_ - ay * bx).

(** [Vec3.dot] *)
Definition dot (a b : Vec3) : R :=
  let '(ax, ay, az) := a in
  let '(bx, by_, bz) := b in
  ax * bx + ay * by_ + az * bz.

(** A positional argument of a method call: a float or a vector. *)
Inductive arg : Type :=
| ArgFloat (x : R)
| ArgVec3 (v : Vec3).

(** [*t] for a 3-tuple [t] of floats: its three floats as positional
    arguments. *)
Definition unpack (t : Tuple3) : list arg :=
  let '(x, y, z) := t in [ArgFloat x; ArgFloat y; ArgFloat z].

(** The call [self.cross( *args )] of [Vec3.cross(self, other)]: any number
    of positional arguments other than one raises [TypeError]; a float has
    no components to read. *)
Definition cross_call (self : Vec3) (args : list arg) : result Vec3 :=
  match args with
  | [ArgVec3 other] => Ok (cross self other)
  | [ArgFloat _] => Raise AttributeError
  | _ => Raise TypeError
  end.

(** [m[i]] *)
Definition get (m : Mat4) (i : nat) : R := nth i m 0.
Notation "m .[ i ]" := (get m i%nat) (at level 1, i at level 200, format "m .[ i ]").

(** [m[i::4]] (a row) and [m[4*j:4*j+4]] (a column). *)
Definition row (m : Mat4) (i : nat) : list R :=
  [get m i; get m (i + 4); get m (i + 8); get m (i + 12)].
Definition col (m : Mat4) (j : nat) : list R :=
  [get m (4 * j); get m (4 * j + 1); get m (4 * j + 2); get m (4 * j + 3)].

(** [sum(map(mul, a, b))] *)
Fixpoint sum_mul (a b : list R) : R :=
  match a, b with
  | x :: a', y :: b' => x * y + sum_mul a' b'
  | _, _ => 0
  end.

(** [Mat4.__matmul__] with a [Mat4] operand. *)
Definition matmul (a b : Mat4) : Mat4 :=
  flat_map (fun j => map (fun i => sum_mul (col b j) (row a i)) [0; 1; 2; 3]%nat)
           [0; 1; 2; 3]%nat.

(** [Mat4.__matmul__] with a [Vec4] operand. *)
Definition matvec (m : Mat4) (v : Vec4) : Vec4 :=
  let '(x, y, z, w) := v in
  let o := [x; y; z; w] in
  (sum_mul (row m 0) o, sum_mul (row m 1) o, sum_mul (row m 2) o, sum_mul (row m 3) o).

(** Determinant, by expansion along the first column. *)
Definition det (s : Mat4) : R :=
  let a := s.[10] * s.[15] - s.[11] * s.[14] in
  let b := s.[9] * s.[15] - s.[11] * s.[13] in
  let c := s.[9] * s.[14] - s.[10] * s.[13] in
  let d := s.[8] * s.[15] - s.[11] * s.[12] in
  let e := s.[8] * s.[14] - s.[10] * s.[12] in
  let f := s.[8] * s.[13] - s.[9] * s.[12] in
  s.[0] * (s.[5] * a - s.[6] * b + s.[7] * c)
  - s.[1] * (s.[4] * a - s.[6] * d + s.[7] * e)
  + s.[2] * (s.[4] * b - s.[5] * d + s.[7] * f)
  - s.[3] * (s.[4] * c - s.[5] * e + s.[6] * f).

(** [Mat4.__invert__] (the [~] operator): a singular matrix is returned
    unchanged (pyglet only emits a warning); no exception is raised. *)
Definition invert (s : Mat4) : Mat4 :=
  let a := s.[10] * s.[15] - s.[11] * s.[14] in
  let b := s.[9] * s.[15] - s.[11] * s.[13] in
  let c := s.[9] * s.[14] - s.[10] * s.[13] in
  let d := s.[8] * s.[15] - s.[11] * s.[12] in
  let e := s.[8] * s.[14] - s.[10] * s.[12] in
  let f := s.[8] * s.[13] - s.[9] * s.[12] in
  let g' := s.[6] * s.[15] - s.[7] * s.[14] in
  let h := s.[5] * s.[15] - s.[7] * s.[13] in
  let i := s.[5] * s.[14] - s.[6] * s.[13] in
  let j := s.[6] * s.[11] - s.[7] * s.[10] in
  let k := s.[5] * s.[11] - s.[7] * s.[9] in
  let l := s.[5] * s.[10] - s.[6] * s.[9] in
  let m := s.[4] * s.[15] - s.[7] * s.[12] in
  let n := s.[4] * s.[14] - s.[6] * s.[12] in
  let o := s.[4] * s.[11] - s.[7] * s.[8] in
  let p := s.[4] * s.[10] - s.[6] * s.[8] in
  let q := s.[4] * s.[13] - s.[5] * s.[12] in
  let r := s.[4] * s.[9] - s.[5] * s.[8] in
  if Req_dec_T (det s) 0 then s
  else
    let pdet := 1 / det s in
    let ndet := - pdet in
    [ pdet * (s.[5] * a - s.[6] * b + s.[7] * c);
      ndet * (s.[1] * a - s.[2] * b + s.[3] * c);
      pdet * (s.[1] * g' - s.[2] * h + s.[3] * i);
      ndet * (s.[1] * j - s.[2] * k + s.[3] * l);
      ndet * (s.[4] * a - s.[6] * d + s.[7] * e);
      pdet * (s.[0] * a - s.[2] * d + s.[3] * e);
      ndet * (s.[0] * g' - s.[2] * m + s.[3] * n);
      pdet * (s.[0] * j - s.[2] * o + s.[3] * p);
      pdet * (s.[4] * b - s.[5] * d + s.[7] * f);
      ndet * (s.[0] * b - s.[1] * d + s.[3] * f);
      pdet * (s.[0] * h - s.[1] * m + s.[3] * q);
      ndet * (s.[0] * k - s.[1] * o + s.[3] * r);
      ndet * (s.[4] * c - s.[5] * e + s.[6] * f);
      pdet * (s.[0] * c - s.[1] * e + s.[2] * f);
      ndet * (s.[0] * i - s.[1] * n + s.[2] * q);
      pdet * (s.[0] * l - s.[1] * p + s.[2] * r) ].

(** [Mat4.perspective_projection(aspect, z_near, z_far, fov)].  [math.tan]
    is read as the real tangent.  A statement that a matrix is returned
    assumes [near * tan <> 0], which leaves out the poles (where the total
    tangent of the library is 0); a statement that the call fails because of
    the tangent keeps the angle strictly between the two poles next to 0,
    where the real tangent vanishes only at 0. *)
Definition perspective_projection (aspect z_near z_far fov : R) : result Mat4 :=
  let xy_max := z_near * tan (fov * PI / 360) in
  let y_min := - xy_max in
  let x_min := - xy_max in
  let width := xy_max - x_min in
  let height := xy_max - y_min in
  let depth := z_far - z_near in
  (q <- pydiv (- (z_far + z_near)) depth ;;
   qn <- pydiv (- 2 * z_far * z_near) depth ;;
   w <- pydiv (2 * z_near) width ;;
   w <- pydiv w aspect ;;
   h <- pydiv (2 * z_near) height ;;
   Ok [ w; 0; 0; 0;
        0; h; 0; 0;
        0; 0; q; - 1;
        0; 0; qn; 0 ])%result.

End Pyglet.

(** ** arcade.camera.data

    The two plain records the camera code reads and writes; their fields
    are taken from the constructor calls in [PerspectiveProjector.__init__]
    and from the attribute accesses of the source. *)

Definition Viewport : Type := Z * Z * Z * Z.

Record CameraData : Type := mkCameraData {
  viewport : Viewport;
  position : Tuple3;
  up : Tuple3;
  forward : Tuple3;
  zoom : R
}.

Record PerspectiveProjectionData : Type := mkPerspectiveProjectionData {
  aspect : R;
  fov : R;
  near : R;
  far : R
}.

Definition set_position (v : Tuple3) (d : CameraData) : CameraData :=
  mkCameraData (viewport d) v (up d) (forward d) (zoom d).
Definition set_up (v : Tuple3) (d : CameraData) : CameraData :=
  mkCameraData (viewport d) (position d) v (forward d) (zoom d).
Definition set_forward (v : Tuple3) (d : CameraData) : CameraData :=
  mkCameraData (viewport d) (position d) (up d) v (zoom d).

(** ** simple_controller_functions.py *)

Module Controllers.

(** [quaternion_rotation(_axis, _vector, _angle)] *)
Definition quaternion_rotation (_axis _vector : Tuple3) (_angle : R) : Tuple3 :=
  let _rotation_rads := - radians _angle in
  let '(p1, p2, p3) := _vector in
  let '(a1, a2, a3) := _axis in
  let _c2 := cos (_rotation_rads / 2) in
  let _s2 := sin (_rotation_rads / 2) in
  let q0 := _c2 in
  let q1 := _s2 * a1 in
  let q2 := _s2 * a2 in
  let q3 := _s2 * a3 in
  let q0_2 := q0 ^ 2 in
  let q1_2 := q1 ^ 2 in
  let q2_2 := q2 ^ 2 in
  let q3_2 := q3 ^ 2 in
  let q01 := q0 * q1 in
  let q02 := q0 * q2 in
  let q03 := q0 * q3 in
  let q12 := q1 * q2 in
  let q13 := q1 * q3 in
  let q23 := q2 * q3 in
  let _x := p1 * (q0_2 + q1_2 - q2_2 - q3_2) + 2 * (p2 * (q12 - q03) + p3 * (q02 + q13)) in
  let _y := p2 * (q0_2 - q1_2 + q2_2 - q3_2) + 2 * (p1 * (q03 + q12) + p3 * (q23 - q01)) in
  let _z := p3 * (q0_2 - q1_2 - q2_2 + q3_2) + 2 * (p1 * (q13 - q02) + p2 * (q01 + q23)) in
  (_x, _y, _z).

(** [rotate_around_forward(data, angle)] *)
Definition rotate_around_forward (data : CameraData) (angle : R) : CameraData :=
  set_up (quaternion_rotation (forward data) (up data) angle) data.

(** [rotate_around_up(data, angle)] *)
Definition rotate_around_up (data : CameraData) (angle : R) : CameraData :=
  set_forward (quaternion_rotation (up data) (forward data) angle) data.

(** [rotate_around_right(data, angle)]: [Vec3( *data.forward)] is the vector
    of [forward]; [.cross( *data.up)] passes the three floats of [up]. *)
Definition rotate_around_right (data : CameraData) (angle : R) : result CameraData :=
  (_crossed_vec <- Pyglet.cross_call (forward data) (Pyglet.unpack (up data)) ;;
   let '(cx, cy, cz) := _crossed_vec in
   let _right : Tuple3 := (cx, cy, cz) in
   let data := set_forward (quaternion_rotation _right (forward data) angle) data in
   let data := set_up (quaternion_rotation _right (up data) angle) data in
   Ok data)%result.

(** [_interpolate_3D(s, e, t)] *)
Definition _interpolate_3D (s e : Tuple3) (t : R) : Tuple3 :=
  let '(s_x, s_y, s_z) := s in
  let '(e_x, e_y, e_z) := e in
  (s_x + t * (e_x - s_x), s_y + t * (e_y - s_y), s_z + t * (e_z - s_z)).

(** [target + (0,)]: a 2-tuple extended by the integer 0. *)
Definition extend0 (t : Tuple2) : Tuple3 := let '(x, y) := t in (x, y, 0).

(** [simple_follow(speed, target, data)] *)
Definition simple_follow (speed : R) (target : Tuple3) (data : CameraData) : CameraData :=
  set_position (_interpolate_3D (position data) target speed) data.

(** [simple_follow_2D(speed, target, data)] *)
Definition simple_follow_2D (speed : R) (target : Tuple2) (data : CameraData) : CameraData :=
  simple_follow speed (extend0 target) data.

(** [simple_easing(percent, start, target, data, func)] *)
Definition simple_easing (percent : R) (start target : Tuple3) (data : CameraData)
    (func : R -> R) : CameraData :=
  set_position (_interpolate_3D start target (func percent)) data.

(** [simple_easing_2D(percent, start, target, data, func)] *)
Definition simple_easing_2D (percent : R) (start target : Tuple2) (data : CameraData)
    (func : R -> R) : CameraData :=
  simple_easing percent (extend0 start) (extend0 target) data func.

End Controllers.

(** ** perspective.py *)

Module Perspective.

(** A reference to a projector object. *)
Definition ProjRef : Type := nat.

(** The attributes of a [PerspectiveProjector] other than [_window]. *)
Record PerspectiveProjector : Type := mkProjector {
  _view : CameraData;
  _projection : PerspectiveProjectionData
}.

(** The attributes of the window that the projector touches:
    [current_camera], [ctx.viewport], [projection] and [view]. *)
Record Window : Type := mkWindow {
  current_camera : option ProjRef;
  ctx_viewport : Viewport;
  win_projection : Pyglet.Mat4;
  win_view : Pyglet.Mat4
}.

(** The mutable store: the projector objects and the application window
    every projector is bound to ([window or get_window()]). *)
Record World : Type := mkWorld {
  objects : ProjRef -> PerspectiveProjector;
  window : Window
}.

(** Stateful code that may raise. *)
Definition M (A : Type) : Type := World -> World * result A.

Definition ret {A : Type} (a : A) : M A := fun w => (w, Ok a).
Definition raise {A : Type} (e : exn) : M A := fun w => (w, Raise e).
Definition bind {A B : Type} (m : M A) (k : A -> M B) : M B :=
  fun w => match m w with
           | (w1, Ok a) => k a w1
           | (w1, Raise e) => (w1, Raise e)
           end.
Definition lift {A : Type} (r : result A) : M A := fun w => (w, r).

Declare Scope world_scope.
Delimit Scope world_scope with M.
Notation "x <- m ;; k" := (bind m (fun x => k))
  (at level 61, m at next level, right associativity) : world_scope.
Notation "m ;; k" := (bind m (fun _ => k))
  (at level 61, right associativity) : world_scope.

Definition get_object (p : ProjRef) : M PerspectiveProjector :=
  fun w => (w, Ok (objects w p)).
Definition get_current_camera : M (option ProjRef) :=
  fun w => (w, Ok (current_camera (window w))).
Definition set_current_camera (c : option ProjRef) : M unit :=
  fun w => (mkWorld (objects w)
              (mkWindow c (ctx_viewport (window w)) (win_projection (window w))
                        (win_view (window w))), Ok tt).
Definition set_ctx_viewport (v : Viewport) : M unit :=
  fun w => (mkWorld (objects w)
              (mkWindow (current_camera (window w)) v (win_projection (window w))
                        (win_view (window w))), Ok tt).
Definition set_projection (m : Pyglet.Mat4) : M unit :=
  fun w => (mkWorld (objects w)
              (mkWindow (current_camera (window w)) (ctx_viewport (window w)) m
                        (win_view (window w))), Ok tt).
Definition set_view (m : Pyglet.Mat4) : M unit :=
  fun w => (mkWorld (objects w)
              (mkWindow (current_camera (window w)) (ctx_viewport (window w))
                        (win_projection (window w)) m), Ok tt).

(** [_generate_projection_matrix] *)
Definition _generate_projection_matrix (self : PerspectiveProjector) : result Pyglet.Mat4 :=
  (_true_fov <- pydiv (fov (_projection self)) (zoom (_view self)) ;;
   Pyglet.perspective_projection
     (aspect (_projection self))
     (near (_projection self))
     (far (_projection self))
     _true_fov)%result.

(** [_generate_view_matrix] *)
Definition _generate_view_matrix (self : PerspectiveProjector) : Pyglet.Mat4 :=
  let fo := Pyglet.normalize (forward (_view self)) in
  let up := Pyglet.normalize (up (_view self)) in
  let ri := Pyglet.cross fo up in
  let up := Pyglet.cross ri fo in
  let po := position (_view self) in
  let '(ri_x, ri_y, ri_z) := ri in
  let '(up_x, up_y, up_z) := up in
  let '(fo_x, fo_y, fo_z) := fo in
  [ ri_x; up_x; - fo_x; 0;
    ri_y; up_y; - fo_y; 0;
    ri_z; up_z; - fo_z; 0;
    - Pyglet.dot ri po; - Pyglet.dot up po; Pyglet.dot fo po; 1 ].

(** [use] *)
Definition use (self : ProjRef) : M unit :=
  (set_current_camera (Some self) ;;
   obj <- get_object self ;;
   _projection <- lift (_generate_projection_matrix obj) ;;
   let _view_matrix := _generate_view_matrix obj in
   set_ctx_viewport (viewport (_view obj)) ;;
   set_projection _projection ;;
   set_view _view_matrix)%M.

(** [previous_projector.use()], where [previous_projector] was read from
    [current_camera] and may be [None]. *)
Definition use_previous (previous_projector : option ProjRef) : M unit :=
  match previous_projector with
  | Some p => use p
  | None => raise AttributeError
  end.

(** The generator of [activate] up to its [yield]: what entering the
    [with] statement runs.  It yields [self]; the local
    [previous_projector] is kept for the exit. *)
Definition activate_enter (self : ProjRef) : M (option ProjRef * ProjRef) :=
  fun w =>
    let previous_projector := current_camera (window w) in
    match use self w with
    | (w1, Ok _) => (w1, Ok (previous_projector, self))
    | (w1, Raise e) =>
        match use_previous previous_projector w1 with
        | (w2, Ok _) => (w2, Raise e)
        | (w2, Raise e') => (w2, Raise e')
        end
    end.

(** The generator of [activate] resumed after the caller's block ended
    with [outcome]: the [finally] clause, then the outcome. *)
Definition activate_exit {A : Type} (previous_projector : option ProjRef)
    (outcome : result A) : M A :=
  fun w =>
    match use_previous previous_projector w with
    | (w1, Ok _) => (w1, outcome)
    | (w1, Raise e') => (w1, Raise e')
    end.

(** [with self.activate() as cam: block(cam)] *)
Definition with_activate {A : Type} (self : ProjRef) (block : ProjRef -> M A) : M A :=
  fun w =>
    match activate_enter self w with
    | (w1, Raise e) => (w1, Raise e)
    | (w1, Ok (previous_projector, cam)) =>
        let '(w2, outcome) := block cam w1 in
        activate_exit previous_projector outcome w2
    end.

(** The normalised device coordinate of one screen axis:
    [2.0 * (c - origin) / extent - 1]. *)
Definition screen_axis (c : R) (origin extent : Z) : result R :=
  (q <- pydiv (2 * (c - IZR origin)) (IZR extent) ;; Ok (q - 1))%result.

(** [map_coordinate] *)
Definition map_coordinate (self : PerspectiveProjector) (screen_coordinate : Tuple2)
    : result Tuple2 :=
  let '(vx, vy, vw, vh) := viewport (_view self) in
  (screen_x <- screen_axis (fst screen_coordinate) vx vw ;;
   screen_y <- screen_axis (snd screen_coordinate) vy vh ;;
   let _view_matrix := _generate_view_matrix self in
   _projection <- _generate_projection_matrix self ;;
   let screen_position : Pyglet.Vec4 := (screen_x, screen_y, - 1, 1) in
   let _full := Pyglet.invert (Pyglet.matmul _projection _view_matrix) in
   let '(m0, m1, _, _) := Pyglet.matvec _full screen_position in
   Ok (m0, m1))%result.

(** [map_coordinate_at_depth] *)
Definition map_coordinate_at_depth (self : PerspectiveProjector)
    (screen_coordinate : Tuple2) (depth : R) : result Tuple2 :=
  let '(vx, vy, vw, vh) := viewport (_view self) in
  (screen_x <- screen_axis (fst screen_coordinate) vx vw ;;
   screen_y <- screen_axis (snd screen_coordinate) vy vh ;;
   let _view_matrix := _generate_view_matrix self in
   _projection <- _generate_projection_matrix self ;;
   d <- pydiv (2 * depth) (far (Perspective._projection self) - near (Perspective._projection self)) ;;
   let _depth := d - 1 in
   let screen_position : Pyglet.Vec4 := (screen_x, screen_y, _depth, 1) in
   let _full := Pyglet.invert (Pyglet.matmul _projection _view_matrix) in
   let '(m0, m1, _, _) := Pyglet.matvec _full screen_position in
   Ok (m0, m1))%result.

(** The basis vectors stored in a view matrix: [right] and [up] are the
    first two entries of the first three rows, [forward] the negated third. *)
Definition basis_right (m : Pyglet.Mat4) : Tuple3 := (Pyglet.get m 0, Pyglet.get m 4, Pyglet.get m 8).
Definition basis_up (m : Pyglet.Mat4) : Tuple3 := (Pyglet.get m 1, Pyglet.get m 5, Pyglet.get m 9).
Definition basis_forward (m : Pyglet.Mat4) : Tuple3 := (- Pyglet.get m 2, - Pyglet.get m 6, - Pyglet.get m 10).

End Perspective.

(** ** stack.py *)

Module Stack.

(** The rendering context the stack is bound to; the stack stores the
    reference and completes no call on it. *)
Definition ArcadeContext : Type := nat.

(** [CameraState] *)
Record CameraState : Type := mkCameraState {
  view : Pyglet.Mat4;
  projection : Pyglet.Mat4;
  viewport : Viewport;
  scissor : option Viewport;
  projector : Perspective.ProjRef
}.

(** [CameraStack] *)
Record CameraStack : Type := mkCameraStack {
  _context : ArcadeContext;
  _stack : list CameraState
}.

(** Python's [list.pop()]: the last element and the remaining list. *)
Definition list_pop {A : Type} (l : list A) : option (A * list A) :=
  match rev l with
  | [] => None
  | x :: r => Some (x, rev r)
  end.

(** [__init__] *)
Definition __init__ (context : ArcadeContext) : CameraStack :=
  mkCameraStack context [].

(** [push] *)
Definition push (camera_state : CameraState) (self : CameraStack) : CameraStack :=
  mkCameraStack (_context self) (_stack self ++ [camera_state]).

(** [pop] *)
Definition pop (self : CameraStack) : CameraStack * result CameraState :=
  if Nat.eqb (length (_stack self)) 1 then (self, Raise ValueError)
  else match list_pop (_stack self) with
       | Some (top, rest) => (mkCameraStack (_context self) rest, Ok top)
       | None => (self, Raise IndexError)
       end.

(** [peek] *)
Definition peek (self : CameraStack) : result CameraState :=
  match list_pop (_stack self) with
  | Some (top, _) => Ok top
  | None => Raise IndexError
  end.

(** [clear]: the list is emptied; the statement that follows in the
    source, [self._context.], is unfinished and changes nothing. *)
Definition clear (self : CameraStack) : CameraStack :=
  mkCameraStack (_context self) [].

(** Size of the stack. *)
Definition size (self : CameraStack) : nat := length (_stack self).

End Stack.

(** ** Notions used in the statements *)

(** Every division of [_generate_projection_matrix] has a non-zero divisor. *)
Definition projection_defined (self : Perspective.PerspectiveProjector) : Prop :=
  let v := Perspective._view self in
  let p := Perspective._projection self in
  zoom v <> 0 /\ far p - near p <> 0 /\
  near p * tan (fov p / zoom v * PI / 360) <> 0 /\ aspect p <> 0.

(** The viewport has a non-zero width and height. *)
Definition viewport_defined (self : Perspective.PerspectiveProjector) : Prop :=
  let '(_, _, vw, vh) := viewport (Perspective._view self) in
  IZR vw <> 0 /\ IZR vh <> 0.

(** The projector [PerspectiveProjector.__init__] builds for a window of
    800 by 600 pixels when no view and no projection are passed. *)
Definition default_projector : Perspective.PerspectiveProjector :=
  Perspective.mkProjector
    (mkCameraData (0, 0, 800, 600)%Z (800 / 2, 600 / 2, 0) (0, 1, 0) (0, 0, - 1) 1)
    (mkPerspectiveProjectionData (800 / 600) 90 (1 / 10) 1000).

(** A projector whose [up] was set parallel to its [forward]. *)
Definition degenerate_projector : Perspective.PerspectiveProjector :=
  Perspective.mkProjector
    (mkCameraData (0, 0, 800, 600)%Z (800 / 2, 600 / 2, 0) (0, 0, - 1) (0, 0, - 1) 1)
    (mkPerspectiveProjectionData (800 / 600) 90 (1 / 10) 1000).

(** A projector whose near and far planes coincide. *)
Definition flat_projector : Perspective.PerspectiveProjector :=
  Perspective.mkProjector
    (mkCameraData (0, 0, 800, 600)%Z (800 / 2, 600 / 2, 0) (0, 1, 0) (0, 0, - 1) 1)
    (mkPerspectiveProjectionData (800 / 600) 90 1 1).

(** The matrix [projection @ view] that [map_coordinate] inverts, when the
    projection matrix can be built. *)
Definition combined_matrix (self : Perspective.PerspectiveProjector) : result Pyglet.Mat4 :=
  (_projection <- Perspective._generate_projection_matrix self ;;
   Ok (Pyglet.matmul _projection (Perspective._generate_view_matrix self)))%result.

(** The 4x4 identity, the initial value of the window's matrices. *)
Definition identity : Pyglet.Mat4 :=
  [ 1; 0; 0; 0;  0; 1; 0; 0;  0; 0; 1; 0;  0; 0; 0; 1 ].

(** A world before any camera was used: [current_camera] is [None]. *)
Definition world_no_camera : Perspective.World :=
  Perspective.mkWorld (fun _ => default_projector)
    (Perspective.mkWindow None (0, 0, 800, 600)%Z identity identity).

(** A world in which projector 0 is the current camera. *)
Definition world_camera_0 : Perspective.World :=
  Perspective.mkWorld (fun _ => default_projector)
    (Perspective.mkWindow (Some 0%nat) (0, 0, 800, 600)%Z identity identity).

(** [simple_follow] called once per frame, [n] frames in a row, with the
    same speed and target. *)
Fixpoint follow_n (n : nat) (speed : R) (target : Tuple3) (data : CameraData) : CameraData :=
  match n with
  | O => data
  | S k => follow_n k speed target (Controllers.simple_follow speed target data)
  end.

(** The Hamilton product of two quaternions, as 4-tuples. *)
Definition hamilton (q p : R * R * R * R) : R * R * R * R :=
  let '(q0, q1, q2, q3) := q in
  let '(p0, p1, p2, p3) := p in
  (q0 * p0 - q1 * p1 - q2 * p2 - q3 * p3,
   q0 * p1 + q1 * p0 + q2 * p3 - q3 * p2,
   q0 * p2 - q1 * p3 + q2 * p0 + q3 * p1,
   q0 * p3 + q1 * p2 - q2 * p1 + q3 * p0).

(** The matrix [Mat4.perspective_projection] returns when all its divisions
    are defined, with the quotients simplified. *)
Definition projection_closed_form (self : Perspective.PerspectiveProjector) : Pyglet.Mat4 :=
  let p := Perspective._projection self in
  let t := tan (fov p / zoom (Perspective._view self) * PI / 360) in
  [ 1 / (t * aspect p); 0; 0; 0;
    0; 1 / t; 0; 0;
    0; 0; - (far p + near p) / (far p - near p); - 1;
    0; 0; - 2 * far p * near p / (far p - near p); 0 ].

(** The window after a successful [use] of a projector object [obj] that
    is referenced by [self], with projection matrix [P]. *)
Definition window_of (self : Perspective.ProjRef) (obj : Perspective.PerspectiveProjector)
    (P : Pyglet.Mat4) : Perspective.Window :=
  Perspective.mkWindow (Some self) (viewport (Perspective._view obj)) P
    (Perspective._generate_view_matrix obj).

(** A world in which every projector has coinciding near and far planes. *)
Definition world_flat : Perspective.World :=
  Perspective.mkWorld (fun _ => flat_projector)
    (Perspective.mkWindow None (0, 0, 800, 600)%Z identity identity).

(** The world [use] leaves when the projection matrix cannot be built:
    only [current_camera] has changed. *)
Definition camera_switched (self : Perspective.ProjRef) (w : Perspective.World)
    : Perspective.World :=
  Perspective.mkWorld (Perspective.objects w)
    (Perspective.mkWindow (Some self)
       (Perspective.ctx_viewport (Perspective.window w))
       (Perspective.win_projection (Perspective.window w))
       (Perspective.win_view (Perspective.window w))).

(** A block that moves the near plane of every projector onto its far
    plane and then raises. *)
Definition flatten_and_raise : Perspective.ProjRef -> Perspective.M unit :=
  fun _ w => (Perspective.mkWorld (fun _ => flat_projector) (Perspective.window w),
              Raise (Exception 7)).

(** A vector scaled by a factor. *)
Definition scale3 (k : R) (v : Tuple3) : Tuple3 :=
  let '(x, y, z) := v in (k * x, k * y, k * z).

(** The point [map_coordinate] unprojects: the screen coordinate in
    normalised device coordinates, on the near plane. *)
Definition ndc (self : Perspective.PerspectiveProjector) (screen_coordinate : Tuple2)
    : Pyglet.Vec4 :=
  let '(vx, vy, vw, vh) := viewport (Perspective._view self) in
  (2 * (fst screen_coordinate - IZR vx) / IZR vw - 1,
   2 * (snd screen_coordinate - IZR vy) / IZR vh - 1, - 1, 1).

(** The first two components of a 4-vector. *)
Definition xy (v : Pyglet.Vec4) : Tuple2 := let '(x, y, _, _) := v in (x, y).

(** [projection @ view] of a camera at [(px, py, pz)] that looks down the
    negative z axis with [up = (0, 1, 0)], in terms of the four non-trivial
    entries [w], [h], [q], [qn] of the projection matrix. *)
Definition axis_combined (w h q qn px py pz : R) : Pyglet.Mat4 :=
  [ w; 0; 0; 0;
    0; h; 0; 0;
    0; 0; q; - 1;
    - (w * px); - (h * py); qn - q * pz; pz ].

(** [projection @ view] of [default_projector]. *)
Definition default_combined : Pyglet.Mat4 :=
  axis_combined (1 / (tan (90 / 1 * PI / 360) * (800 / 600)))
                (1 / tan (90 / 1 * PI / 360))
                (- (1000 + 1 / 10) / (1000 - 1 / 10))
                (- 2 * 1000 * (1 / 10) / (1000 - 1 / 10))
                (800 / 2) (600 / 2) 0.

(** [PerspectiveProjector.__init__] for a window of [width] by [height]
    pixels: [view or CameraData(...)] and
    [projection or PerspectiveProjectionData(...)], where an argument that is
    passed (an object, hence true) is kept.  The default aspect ratio is the
    division [width / height]. *)
Definition projector_init (width height : Z) (view : option CameraData)
    (projection : option PerspectiveProjectionData)
    : result Perspective.PerspectiveProjector :=
  let _view :=
    match view with
    | Some v => v
    | None => mkCameraData (0, 0, width, height)%Z
                (IZR width / 2, IZR height / 2, 0) (0, 1, 0) (0, 0, - 1) 1
    end in
  (_projection <-
     match projection with
     | Some p => Ok p
     | None => (a <- pydiv (IZR width) (IZR height) ;;
                Ok (mkPerspectiveProjectionData a 90 (1 / 10) 1000))
     end ;;
   Ok (Perspective.mkProjector _view _projection))%result.









(** The quaternion sandwich as a function of the four quaternion
    components; [quaternion_rotation] is this function at
    [(cos h, sin h * axis)] with [h = -radians(angle)/2]. *)
Definition sandwich (q0 q1 q2 q3 : R) (p : Tuple3) : Tuple3 :=
  let '(p1, p2, p3) := p in
  (p1 * (q0 ^ 2 + q1 ^ 2 - q2 ^ 2 - q3 ^ 2)
     + 2 * (p2 * (q1 * q2 - q0 * q3) + p3 * (q0 * q2 + q1 * q3)),
   p2 * (q0 ^ 2 - q1 ^ 2 + q2 ^ 2 - q3 ^ 2)
     + 2 * (p1 * (q0 * q3 + q1 * q2) + p3 * (q2 * q3 - q0 * q1)),
   p3 * (q0 ^ 2 - q1 ^ 2 - q2 ^ 2 + q3 ^ 2)
     + 2 * (p1 * (q1 * q3 - q0 * q2) + p2 * (q0 * q1 + q2 * q3))).

Definition half_angle (angle : R) : R := - radians angle / 2.

(** Equality of two lists of reals, entry by entry. *)
Ltac list_eq_field := repeat (apply f_equal2; [try reflexivity; field|]); try reflexivity.

(** ** The quaternion rotation *)

Lemma quaternion_rotation_sandwich (a1 a2 a3 : R) (v : Tuple3) (angle : R) :
  Controllers.quaternion_rotation (a1, a2, a3) v angle =
  sandwich (cos (half_angle angle)) (sin (half_angle angle) * a1)
           (sin (half_angle angle) * a2) (sin (half_angle angle) * a3) v.
Proof. destruct v as [[p1 p2] p3]. reflexivity. Qed.

Lemma half_angle_opp (angle : R) : half_angle (- angle) = - half_angle angle.
Proof. unfold half_angle, radians. field. Qed.

Lemma tuple3_eq (a b c a' b' c' : R) :
  a = a' -> b = b' -> c = c' -> (a, b, c) = (a', b', c').
Proof. intros -> -> ->. reflexivity. Qed.

(** Applying the conjugate quaternion after the quaternion scales by the
    squared norm of the quaternion, squared. *)
Lemma sandwich_conj (q0 q1 q2 q3 : R) (p : Tuple3) :
  q0 ^ 2 + q1 ^ 2 + q2 ^ 2 + q3 ^ 2 = 1 ->
  sandwich q0 (- q1) (- q2) (- q3) (sandwich q0 q1 q2 q3 p) = p.
Proof.
  intros Hn. destruct p as [[p1 p2] p3]. unfold sandwich.
  apply tuple3_eq.
  - transitivity (p1 * (q0 ^ 2 + q1 ^ 2 + q2 ^ 2 + q3 ^ 2) ^ 2); [ring|].
    rewrite Hn. ring.
  - transitivity (p2 * (q0 ^ 2 + q1 ^ 2 + q2 ^ 2 + q3 ^ 2) ^ 2); [ring|].
    rewrite Hn. ring.
  - transitivity (p3 * (q0 ^ 2 + q1 ^ 2 + q2 ^ 2 + q3 ^ 2) ^ 2); [ring|].
    rewrite Hn. ring.
Qed.

Lemma sandwich_norm2 (q0 q1 q2 q3 p1 p2 p3 : R) :
  q0 ^ 2 + q1 ^ 2 + q2 ^ 2 + q3 ^ 2 = 1 ->
  let '(x, y, z) := sandwich q0 q1 q2 q3 (p1, p2, p3) in
  x ^ 2 + y ^ 2 + z ^ 2 = p1 ^ 2 + p2 ^ 2 + p3 ^ 2.
Proof.
  intros Hn. unfold sandwich.
  transitivity ((p1 ^ 2 + p2 ^ 2 + p3 ^ 2) * (q0 ^ 2 + q1 ^ 2 + q2 ^ 2 + q3 ^ 2) ^ 2);
    [ring|]. rewrite Hn. ring.
Qed.

Lemma unit_norm2 (a1 a2 a3 : R) :
  magnitude (a1, a2, a3) = 1 -> a1 ^ 2 + a2 ^ 2 + a3 ^ 2 = 1.
Proof.
  unfold magnitude. intros H.
  assert (Hpos : 0 <= a1 ^ 2 + a2 ^ 2 + a3 ^ 2) by nra.
  rewrite <- (sqrt_sqrt _ Hpos). rewrite H. ring.
Qed.

Lemma unit_quaternion (h a1 a2 a3 : R) :
  a1 ^ 2 + a2 ^ 2 + a3 ^ 2 = 1 ->
  cos h ^ 2 + (sin h * a1) ^ 2 + (sin h * a2) ^ 2 + (sin h * a3) ^ 2 = 1.
Proof.
  intros Ha.
  transitivity (cos h ^ 2 + sin h ^ 2 * (a1 ^ 2 + a2 ^ 2 + a3 ^ 2)); [ring|].
  rewrite Ha. pose proof (sin2_cos2 h) as H. unfold Rsqr in H. lra.
Qed.

Lemma cos_PI4_sq : cos (PI / 4) ^ 2 = 1 / 2.
Proof.
  rewrite cos_PI4.
  assert (H2 : sqrt 2 * sqrt 2 = 2) by (apply sqrt_sqrt; lra).
  assert (Hs : sqrt 2 <> 0) by (intros E; rewrite E in H2; lra).
  field_simplify; [|exact Hs]. rewrite <- H2 at 2. simpl. field. exact Hs.
Qed.

Lemma sin_PI4_cos : sin (PI / 4) = cos (PI / 4).
Proof. rewrite sin_PI4, cos_PI4. reflexivity. Qed.

Lemma half_angle_90 : half_angle 90 = - (PI / 4).
Proof. unfold half_angle, radians. field. Qed.

Lemma quaternion_rotation_example :
  Controllers.quaternion_rotation (0, 1, 0) (0, 0, - 1) 90 = (1, 0, 0).
Proof.
  rewrite quaternion_rotation_sandwich, half_angle_90, cos_neg, sin_neg, sin_PI4_cos.
  pose proof cos_PI4_sq as Hc. set (c := cos (PI / 4)) in *.
  unfold sandwich. apply tuple3_eq; nra.
Qed.

(** The rotation of a vector about a unit axis and back. *)
Lemma quaternion_rotation_inverse (axis v : Tuple3) (angle : R) :
  magnitude axis = 1 ->
  Controllers.quaternion_rotation axis
    (Controllers.quaternion_rotation axis v angle) (- angle) = v.
Proof.
  destruct axis as [[a1 a2] a3]. intros Hu. apply unit_norm2 in Hu.
  rewrite !quaternion_rotation_sandwich, half_angle_opp, cos_neg, sin_neg.
  replace (- sin (half_angle angle) * a1) with (- (sin (half_angle angle) * a1)) by ring.
  replace (- sin (half_angle angle) * a2) with (- (sin (half_angle angle) * a2)) by ring.
  replace (- sin (half_angle angle) * a3) with (- (sin (half_angle angle) * a3)) by ring.
  apply sandwich_conj, unit_quaternion, Hu.
Qed.

Lemma quaternion_rotation_magnitude (axis v : Tuple3) (angle : R) :
  magnitude axis = 1 ->
  magnitude (Controllers.quaternion_rotation axis v angle) = magnitude v.
Proof.
  destruct axis as [[a1 a2] a3], v as [[p1 p2] p3]. intros Hu. apply unit_norm2 in Hu.
  rewrite quaternion_rotation_sandwich.
  pose proof (sandwich_norm2 _ _ _ _ p1 p2 p3
                (unit_quaternion (half_angle angle) _ _ _ Hu)) as Hn.
  destruct (sandwich _ _ _ _ _) as [[x y] z]. unfold magnitude. now rewrite Hn.
Qed.

Lemma magnitude_unit_x : magnitude (1, 0, 0) = 1.
Proof.
  unfold magnitude. replace (1 ^ 2 + 0 ^ 2 + 0 ^ 2) with 1 by ring. apply sqrt_1.
Qed.

(** C8: for a unit-length axis, [quaternion_rotation] keeps the magnitude
    of the rotated vector, and rotating the result about the same axis by
    the opposite angle gives the vector back. *)
Theorem C8_quaternion_rotation_isometry_inverse (axis v : Tuple3) (angle : R) :
  magnitude axis = 1 ->
  magnitude (Controllers.quaternion_rotation axis v angle) = magnitude v /\
  Controllers.quaternion_rotation axis
    (Controllers.quaternion_rotation axis v angle) (- angle) = v.
Proof.
  intros Hu. split.
  - now apply quaternion_rotation_magnitude.
  - now apply quaternion_rotation_inverse.
Qed.

Lemma C8_witness :
  magnitude (1, 0, 0) = 1 /\
  magnitude (Controllers.quaternion_rotation (1, 0, 0) (1, 2, 3) 90) = magnitude (1, 2, 3) /\
  Controllers.quaternion_rotation (1, 0, 0)
    (Controllers.quaternion_rotation (1, 0, 0) (1, 2, 3) 90) (- 90) = (1, 2, 3).
Proof.
  split; [exact magnitude_unit_x|].
  apply (C8_quaternion_rotation_isometry_inverse (1, 0, 0) (1, 2, 3) 90).
  exact magnitude_unit_x.
Defined.

(** C4 (as stated): the scenario result is not within [1] of [(-1, 0, 0)] in
    every component; its first component is [1]. *)
Lemma C4_counterexample :
  ~ approx3 1 (Controllers.quaternion_rotation (0, 1, 0) (0, 0, - 1) 90) (- 1, 0, 0).
Proof.
  rewrite quaternion_rotation_example. unfold approx3. intros [H _].
  replace (1 - - 1) with 2 in H by ring. rewrite Rabs_pos_eq in H; lra.
Qed.

(** C4 (amended): rotating [(0, 0, -1)] about [(0, 1, 0)] by 90 degrees with
    the negated-angle convention of the source yields [(1, 0, 0)]. *)
Theorem C4_quaternion_rotation_scenario :
  Controllers.quaternion_rotation (0, 1, 0) (0, 0, - 1) 90 = (1, 0, 0).
Proof. exact quaternion_rotation_example. Qed.

(** C10: [simple_follow_2D] interpolates all three coordinates of the
    position, the third one towards 0, so the z coordinate moves whenever
    it and the speed are non-zero. *)
Theorem C10_simple_follow_2D_position (data : CameraData) (tx ty t : R) :
  let '(x, y, z) := position data in
  position (Controllers.simple_follow_2D t (tx, ty) data) =
    ((1 - t) * x + t * tx, (1 - t) * y + t * ty, (1 - t) * z) /\
  (z <> 0 -> t <> 0 ->
   snd (position (Controllers.simple_follow_2D t (tx, ty) data)) <> z).
Proof.
  destruct data as [vp [[x y] z] u f zm]. cbn.
  split.
  - apply tuple3_eq; ring.
  - intros Hz Ht E. assert (Hp : t * z = 0) by lra.
    apply Rmult_integral in Hp. tauto.
Qed.

Lemma C10_witness :
  let data := mkCameraData (0, 0, 800, 600)%Z (1, 2, 3) (0, 1, 0) (0, 0, - 1) 1 in
  position (Controllers.simple_follow_2D (1 / 2) (4, 5) data) =
    ((1 - 1 / 2) * 1 + 1 / 2 * 4, (1 - 1 / 2) * 2 + 1 / 2 * 5, (1 - 1 / 2) * 3) /\
  snd (position (Controllers.simple_follow_2D (1 / 2) (4, 5) data)) <> 3.
Proof.
  intros data.
  pose proof (C10_simple_follow_2D_position data 4 5 (1 / 2)) as [H1 H2].
  split; [exact H1|]. apply H2; lra.
Defined.

(** The sandwich commutes with the cross product for a unit quaternion. *)
Lemma cross_sandwich (q0 q1 q2 q3 : R) (f u : Tuple3) :
  q0 ^ 2 + q1 ^ 2 + q2 ^ 2 + q3 ^ 2 = 1 ->
  Pyglet.cross (sandwich q0 q1 q2 q3 f) (sandwich q0 q1 q2 q3 u) =
  sandwich q0 q1 q2 q3 (Pyglet.cross f u).
Proof.
  intros Hn. destruct f as [[f1 f2] f3], u as [[u1 u2] u3].
  unfold sandwich, Pyglet.cross. cbv beta iota zeta.
  apply tuple3_eq.
  - match goal with |- ?l = ?r =>
      transitivity (r * (q0 ^ 2 + q1 ^ 2 + q2 ^ 2 + q3 ^ 2)); [ring|rewrite Hn; ring] end.
  - match goal with |- ?l = ?r =>
      transitivity (r * (q0 ^ 2 + q1 ^ 2 + q2 ^ 2 + q3 ^ 2)); [ring|rewrite Hn; ring] end.
  - match goal with |- ?l = ?r =>
      transitivity (r * (q0 ^ 2 + q1 ^ 2 + q2 ^ 2 + q3 ^ 2)); [ring|rewrite Hn; ring] end.
Qed.

(** The rotation axis is a fixed point of the sandwich of a unit quaternion. *)
Lemma sandwich_axis (c s r1 r2 r3 : R) :
  c ^ 2 + (s * r1) ^ 2 + (s * r2) ^ 2 + (s * r3) ^ 2 = 1 ->
  sandwich c (s * r1) (s * r2) (s * r3) (r1, r2, r3) = (r1, r2, r3).
Proof.
  intros Hn. unfold sandwich. apply tuple3_eq.
  - transitivity (r1 * (c ^ 2 + (s * r1) ^ 2 + (s * r2) ^ 2 + (s * r3) ^ 2));
      [ring|rewrite Hn; ring].
  - transitivity (r2 * (c ^ 2 + (s * r1) ^ 2 + (s * r2) ^ 2 + (s * r3) ^ 2));
      [ring|rewrite Hn; ring].
  - transitivity (r3 * (c ^ 2 + (s * r1) ^ 2 + (s * r2) ^ 2 + (s * r3) ^ 2));
      [ring|rewrite Hn; ring].
Qed.

(** Rotating two vectors about their unit-length cross product leaves the
    cross product where it was. *)
Lemma cross_rotated (f u : Tuple3) (angle : R) :
  magnitude (Pyglet.cross f u) = 1 ->
  Pyglet.cross (Controllers.quaternion_rotation (Pyglet.cross f u) f angle)
               (Controllers.quaternion_rotation (Pyglet.cross f u) u angle)
  = Pyglet.cross f u.
Proof.
  intros Hu. remember (Pyglet.cross f u) as r eqn:Hr.
  destruct r as [[r1 r2] r3]. apply unit_norm2 in Hu.
  pose proof (unit_quaternion (half_angle angle) _ _ _ Hu) as Hq.
  rewrite !quaternion_rotation_sandwich, (cross_sandwich _ _ _ _ f u Hq), <- Hr.
  now apply sandwich_axis.
Qed.

Lemma rotate_around_right_raises (data : CameraData) (angle : R) :
  Controllers.rotate_around_right data angle = Raise TypeError.
Proof.
  unfold Controllers.rotate_around_right, Pyglet.unpack.
  destruct (up data) as [[x y] z]. reflexivity.
Qed.

(** C9: [rotate_around_right] raises [TypeError] for every view and every
    angle, before [forward] or [up] is assigned: the call
    [cross( *data.up)] passes three floats to a method that takes one vector.
    The rotation by an angle followed by the rotation by the opposite angle
    therefore raises as well and returns nothing to compare with the original
    vectors. *)
Theorem C9_rotate_around_right_raises (data : CameraData) (angle : R) :
  Controllers.rotate_around_right data angle = Raise TypeError /\
  rbind (Controllers.rotate_around_right data angle)
        (fun data' => Controllers.rotate_around_right data' (- angle))
  = Raise TypeError.
Proof.
  rewrite rotate_around_right_raises. split; reflexivity.
Qed.

Lemma half_angle_180 : half_angle 180 = - (PI / 2).
Proof. unfold half_angle, radians. field. Qed.

Lemma half_angle_neg_180 : half_angle (- 180) = PI / 2.
Proof. unfold half_angle, radians. field. Qed.

(** A half turn about a non-unit axis: the quaternion is [(0, -axis)]. *)
Lemma quaternion_rotation_half_turn (axis v : Tuple3) :
  Controllers.quaternion_rotation axis v 180 =
  let '(a1, a2, a3) := axis in sandwich 0 (- a1) (- a2) (- a3) v.
Proof.
  destruct axis as [[a1 a2] a3].
  rewrite quaternion_rotation_sandwich, half_angle_180, cos_neg, sin_neg, cos_PI2, sin_PI2.
  f_equal; ring.
Qed.

Lemma quaternion_rotation_half_turn_back (axis v : Tuple3) :
  Controllers.quaternion_rotation axis v (- 180) =
  let '(a1, a2, a3) := axis in sandwich 0 a1 a2 a3 v.
Proof.
  destruct axis as [[a1 a2] a3].
  rewrite quaternion_rotation_sandwich, half_angle_neg_180, cos_PI2, sin_PI2.
  f_equal; ring.
Qed.

(** ** The matrix inverse *)

(** For a non-singular matrix [invert] is the inverse matrix. *)
Lemma invert_is_inverse (a0 a1 a2 a3 a4 a5 a6 a7 a8 a9 a10 a11 a12 a13 a14 a15 : R) :
  let m := [a0; a1; a2; a3; a4; a5; a6; a7; a8; a9; a10; a11; a12; a13; a14; a15] in
  Pyglet.det m <> 0 ->
  Pyglet.matmul m (Pyglet.invert m) = identity.
Proof.
  intros m Hd. unfold Pyglet.invert.
  destruct (Req_dec_T (Pyglet.det m) 0) as [E|_]; [contradiction|].
  set (d := Pyglet.det m) in *.
  assert (Hdd : d = Pyglet.det m) by reflexivity.
  unfold Pyglet.det, Pyglet.get, m in Hdd. cbn [nth] in Hdd.
  unfold Pyglet.matmul, Pyglet.get, m, identity. cbn -[d].
  unfold Pyglet.get. cbn [nth].
  repeat (apply f_equal2; [|]); try reflexivity.
  all: field_simplify_eq; [try rewrite Hdd; ring | exact Hd].
Qed.

(** A singular matrix is returned as it is. *)
Lemma invert_singular (m : Pyglet.Mat4) : Pyglet.det m = 0 -> Pyglet.invert m = m.
Proof.
  intros Hd. unfold Pyglet.invert. rewrite Hd.
  destruct (Req_dec_T 0 0) as [_|Hne]; [reflexivity|contradiction].
Qed.

(** ** The view matrix *)

Lemma normalize_nonzero (x y z d : R) :
  magnitude (x, y, z) = d -> d <> 0 ->
  Pyglet.normalize (x, y, z) = (x / d, y / d, z / d).
Proof.
  intros Hd Hnz. unfold Pyglet.normalize. rewrite Hd.
  destruct (Req_dec_T d 0) as [E|_]; [contradiction|reflexivity].
Qed.

(** The basis vectors the view matrix stores, in terms of the normalised
    inputs. *)
Lemma view_matrix_basis (self : Perspective.PerspectiveProjector) :
  let fo := Pyglet.normalize (forward (Perspective._view self)) in
  let up0 := Pyglet.normalize (up (Perspective._view self)) in
  let m := Perspective._generate_view_matrix self in
  Perspective.basis_right m = Pyglet.cross fo up0 /\
  Perspective.basis_up m = Pyglet.cross (Pyglet.cross fo up0) fo /\
  Perspective.basis_forward m = fo.
Proof.
  unfold Perspective._generate_view_matrix.
  destruct (Pyglet.normalize (forward _)) as [[f1 f2] f3].
  destruct (Pyglet.normalize (up _)) as [[u1 u2] u3].
  cbn. unfold Perspective.basis_right, Perspective.basis_up,
    Perspective.basis_forward, Pyglet.get. cbn [nth].
  repeat split; apply tuple3_eq; ring.
Qed.

(** The stored basis vectors are pairwise orthogonal for every input. *)
Lemma view_matrix_orthogonal (self : Perspective.PerspectiveProjector) :
  let m := Perspective._generate_view_matrix self in
  Pyglet.dot (Perspective.basis_right m) (Perspective.basis_up m) = 0 /\
  Pyglet.dot (Perspective.basis_right m) (Perspective.basis_forward m) = 0 /\
  Pyglet.dot (Perspective.basis_up m) (Perspective.basis_forward m) = 0.
Proof.
  destruct (view_matrix_basis self) as [Hr [Hu Hf]]. cbv zeta in *.
  rewrite Hr, Hu, Hf.
  destruct (Pyglet.normalize (forward _)) as [[f1 f2] f3].
  destruct (Pyglet.normalize (up _)) as [[u1 u2] u3].
  cbn. repeat split; ring.
Qed.

Lemma normalize_unit (v : Tuple3) :
  magnitude v <> 0 -> Pyglet.dot (Pyglet.normalize v) (Pyglet.normalize v) = 1.
Proof.
  destruct v as [[x y] z]. intros Hnz.
  rewrite (normalize_nonzero x y z _ eq_refl Hnz).
  assert (Hpos : 0 <= x ^ 2 + y ^ 2 + z ^ 2) by nra.
  pose proof (sqrt_sqrt _ Hpos) as Hs. fold (magnitude (x, y, z)) in Hs.
  set (d := magnitude (x, y, z)) in *. clearbody d. cbn.
  field_simplify_eq; [|exact Hnz]. rewrite <- Hs. ring.
Qed.

(** The squared length of the stored right vector: 1 minus the squared
    cosine of the angle between [forward] and [up]. *)
Lemma view_matrix_right_norm2 (self : Perspective.PerspectiveProjector) :
  magnitude (forward (Perspective._view self)) <> 0 ->
  magnitude (up (Perspective._view self)) <> 0 ->
  let fo := Pyglet.normalize (forward (Perspective._view self)) in
  let up0 := Pyglet.normalize (up (Perspective._view self)) in
  let ri := Perspective.basis_right (Perspective._generate_view_matrix self) in
  Pyglet.dot ri ri = 1 - Pyglet.dot fo up0 ^ 2.
Proof.
  intros Hf Hu. destruct (view_matrix_basis self) as [Hr _]. cbv zeta in *. rewrite Hr.
  pose proof (normalize_unit _ Hf) as Hnf. pose proof (normalize_unit _ Hu) as Hnu.
  destruct (Pyglet.normalize (forward _)) as [[f1 f2] f3].
  destruct (Pyglet.normalize (up _)) as [[u1 u2] u3].
  cbn in *.
  transitivity ((f1 * f1 + f2 * f2 + f3 * f3) * (u1 * u1 + u2 * u2 + u3 * u3)
                - (f1 * u1 + f2 * u2 + f3 * u3) ^ 2); [ring|].
  rewrite Hnf, Hnu. ring.
Qed.

Lemma magnitude_0_3_4 : magnitude (0, 3, 4) = 5.
Proof.
  unfold magnitude. replace (0 ^ 2 + 3 ^ 2 + 4 ^ 2) with (5 * 5) by ring.
  apply sqrt_square. lra.
Qed.

Lemma magnitude_0_0_m1 : magnitude (0, 0, - 1) = 1.
Proof.
  unfold magnitude. replace (0 ^ 2 + 0 ^ 2 + (- 1) ^ 2) with 1 by ring. apply sqrt_1.
Qed.

Lemma magnitude_three_fifths_x : magnitude (3 / 5, 0, 0) = 3 / 5.
Proof.
  unfold magnitude. replace ((3 / 5) ^ 2 + 0 ^ 2 + 0 ^ 2) with (3 / 5 * (3 / 5)) by field.
  apply sqrt_square. lra.
Qed.

Lemma magnitude_three_fifths_y : magnitude (0, 3 / 5, 0) = 3 / 5.
Proof.
  unfold magnitude. replace (0 ^ 2 + (3 / 5) ^ 2 + 0 ^ 2) with (3 / 5 * (3 / 5)) by field.
  apply sqrt_square. lra.
Qed.

(** C3: at [forward = (0, 0, -1)] and the non-perpendicular, non-parallel
    [up = (0, 3, 4)], the right and up vectors stored in the view matrix are
    [(3/5, 0, 0)] and [(0, 3/5, 0)]: orthogonal, but of length 3/5, not 1. *)
Theorem C3_view_matrix_basis_not_unit :
  let self := Perspective.mkProjector
                (mkCameraData (0, 0, 800, 600)%Z (0, 0, 0) (0, 3, 4) (0, 0, - 1) 1)
                (mkPerspectiveProjectionData (4 / 3) 90 (1 / 10) 1000) in
  let m := Perspective._generate_view_matrix self in
  Pyglet.cross (forward (Perspective._view self)) (up (Perspective._view self)) <> (0, 0, 0) /\
  Perspective.basis_right m = (3 / 5, 0, 0) /\
  Perspective.basis_up m = (0, 3 / 5, 0) /\
  magnitude (Perspective.basis_right m) = 3 / 5 /\
  magnitude (Perspective.basis_up m) = 3 / 5 /\
  magnitude (Perspective.basis_right m) <> 1.
Proof.
  intros self m.
  destruct (view_matrix_basis self) as [Hr [Hu _]]. cbv zeta in Hr, Hu. fold m in Hr, Hu.
  cbn [forward up Perspective._view self] in Hr, Hu.
  rewrite (normalize_nonzero 0 0 (- 1) 1 magnitude_0_0_m1) in Hr, Hu by lra.
  rewrite (normalize_nonzero 0 3 4 5 magnitude_0_3_4) in Hr, Hu by lra.
  assert (Hr' : Perspective.basis_right m = (3 / 5, 0, 0)).
  { rewrite Hr. cbn. apply tuple3_eq; field. }
  assert (Hu' : Perspective.basis_up m = (0, 3 / 5, 0)).
  { rewrite Hu. cbn. apply tuple3_eq; field. }
  split; [|rewrite Hr', Hu', magnitude_three_fifths_x, magnitude_three_fifths_y;
           repeat split; lra].
  cbn. intros E. injection E as E1 _ _. lra.
Qed.

(** ** Activation *)

Lemma generate_projection_raises (self : Perspective.PerspectiveProjector) (e : exn) :
  Perspective._generate_projection_matrix self = Raise e -> e = ZeroDivisionError.
Proof.
  unfold Perspective._generate_projection_matrix, Pyglet.perspective_projection, pydiv, rbind.
  repeat (destruct (Req_dec_T _ _); [intros H; injection H as <-; reflexivity|]).
  discriminate.
Qed.

Lemma generate_projection_ok (self : Perspective.PerspectiveProjector) :
  projection_defined self ->
  exists P, Perspective._generate_projection_matrix self = Ok P.
Proof.
  intros (Hz & Hd & Ht & Ha).
  unfold Perspective._generate_projection_matrix, Pyglet.perspective_projection, pydiv, rbind.
  destruct (Req_dec_T _ _) as [E|_]; [contradiction|].
  destruct (Req_dec_T _ _) as [E|_]; [contradiction|].
  destruct (Req_dec_T _ _) as [E|_]; [exfalso; apply Ht; lra|].
  destruct (Req_dec_T _ _) as [E|_]; [contradiction|].
  eexists. reflexivity.
Qed.

Lemma default_projection_defined : projection_defined default_projector.
Proof.
  unfold projection_defined. cbn.
  replace (90 / 1 * PI / 360) with (PI / 4) by field. rewrite tan_PI4.
  repeat split; lra.
Qed.

(** [use] makes [self] the current camera before anything can fail. *)
Lemma use_current_camera (self : Perspective.ProjRef) (w : Perspective.World) :
  Perspective.current_camera (Perspective.window (fst (Perspective.use self w))) = Some self.
Proof.
  unfold Perspective.use, Perspective.bind, Perspective.lift. cbn.
  destruct (Perspective._generate_projection_matrix _); reflexivity.
Qed.

Lemma use_outcome (self : Perspective.ProjRef) (w : Perspective.World) :
  snd (Perspective.use self w) =
  match Perspective._generate_projection_matrix (Perspective.objects w self) with
  | Ok _ => Ok tt
  | Raise e => Raise e
  end.
Proof.
  unfold Perspective.use, Perspective.bind, Perspective.lift. cbn.
  destruct (Perspective._generate_projection_matrix _); reflexivity.
Qed.

Lemma use_previous_some (prev : Perspective.ProjRef) (w : Perspective.World) :
  Perspective.current_camera
    (Perspective.window (fst (Perspective.use_previous (Some prev) w))) = Some prev.
Proof. apply use_current_camera. Qed.

(** An error raised by the block is not swallowed by the scoped activation. *)
Lemma with_activate_propagates (A : Type) (self : Perspective.ProjRef)
    (block : Perspective.ProjRef -> Perspective.M A) (w : Perspective.World) (e : exn) :
  snd (Perspective.use self w) = Ok tt ->
  snd (block self (fst (Perspective.use self w))) = Raise e ->
  exists e', snd (Perspective.with_activate self block w) = Raise e'.
Proof.
  unfold Perspective.with_activate, Perspective.activate_enter.
  destruct (Perspective.use self w) as [w1 r]. cbn [fst snd]. intros -> Hb.
  destruct (block self w1) as [w2 outcome]. cbn [snd] in Hb. subst outcome.
  unfold Perspective.activate_exit.
  destruct (Perspective.use_previous _ w2) as [w3 [[]|e']]; eexists; reflexivity.
Qed.

(** C1: when a projector [prev] is the current camera on entry, the last
    thing the scoped activation of any projector around any block does is
    [prev.use()], and [prev] is the current camera afterwards, whether the
    block returns or raises. *)
Theorem C1_activate_restores_previous (A : Type) (self prev : Perspective.ProjRef)
    (block : Perspective.ProjRef -> Perspective.M A) (w : Perspective.World) :
  Perspective.current_camera (Perspective.window w) = Some prev ->
  (exists w', fst (Perspective.with_activate self block w) = fst (Perspective.use prev w')) /\
  Perspective.current_camera
    (Perspective.window (fst (Perspective.with_activate self block w))) = Some prev.
Proof.
  intros Hprev.
  assert (Hlast : exists w', fst (Perspective.with_activate self block w)
                             = fst (Perspective.use prev w')).
  { unfold Perspective.with_activate, Perspective.activate_enter.
    rewrite Hprev.
    destruct (Perspective.use self w) as [w1 [[]|e]].
    - destruct (block self w1) as [w2 outcome]. unfold Perspective.activate_exit.
      exists w2. cbn [Perspective.use_previous].
      destruct (Perspective.use prev w2) as [w3 [[]|e']]; reflexivity.
    - exists w1. cbn [Perspective.use_previous].
      destruct (Perspective.use prev w1) as [w2 [[]|e']]; reflexivity. }
  split; [exact Hlast|].
  destruct Hlast as [w' ->]. apply use_current_camera.
Qed.

Lemma C1_witness :
  Perspective.current_camera (Perspective.window world_camera_0) = Some 0%nat /\
  Perspective.current_camera
    (Perspective.window
       (fst (Perspective.with_activate 1%nat
               (fun _ => Perspective.raise (A := unit) (Exception 7)) world_camera_0)))
  = Some 0%nat.
Proof.
  split; [reflexivity|].
  apply (proj2 (C1_activate_restores_previous unit 1%nat 0%nat
                  (fun _ => Perspective.raise (Exception 7)) world_camera_0 eq_refl)).
Defined.

(** Without a previous camera the scoped activation always ends with the
    [AttributeError] of [None.use()], raised by the [finally] clause. *)
Lemma with_activate_none_raises (A : Type) (self : Perspective.ProjRef)
    (block : Perspective.ProjRef -> Perspective.M A) (w : Perspective.World) :
  Perspective.current_camera (Perspective.window w) = None ->
  snd (Perspective.with_activate self block w) = Raise AttributeError.
Proof.
  intros Hnone. unfold Perspective.with_activate, Perspective.activate_enter.
  rewrite Hnone.
  destruct (Perspective.use self w) as [w1 [[]|e]]; [|reflexivity].
  destruct (block self w1) as [w2 outcome]. reflexivity.
Qed.

Lemma use_default_ok (self : Perspective.ProjRef) :
  snd (Perspective.use self world_no_camera) = Ok tt.
Proof.
  rewrite use_outcome.
  destruct (generate_projection_ok default_projector default_projection_defined) as [P HP].
  cbn [Perspective.objects world_no_camera]. now rewrite HP.
Qed.

(** C5: with no current camera, entering the scoped activation of a
    projector succeeds: the projector becomes the current camera and the
    block runs.  The error comes only afterwards, as the [AttributeError] of
    calling [use] on [None], and the projector stays the current camera. *)
Theorem C5_activate_without_previous_camera :
  exists w1,
    Perspective.activate_enter 1%nat world_no_camera = (w1, Ok (None, 1%nat)) /\
    Perspective.current_camera (Perspective.window w1) = Some 1%nat /\
    forall (A : Type) (block : Perspective.ProjRef -> Perspective.M A),
      Perspective.with_activate 1%nat block world_no_camera =
      (fst (block 1%nat w1), Raise AttributeError).
Proof.
  exists (fst (Perspective.use 1%nat world_no_camera)).
  pose proof (use_default_ok 1%nat) as Hok.
  pose proof (use_current_camera 1%nat world_no_camera) as Hcam.
  unfold Perspective.with_activate, Perspective.activate_enter.
  destruct (Perspective.use 1%nat world_no_camera) as [w1 r]. cbn in Hok, Hcam |- *.
  subst r. repeat split; [exact Hcam|].
  intros A block. destruct (block 1%nat w1) as [w2 outcome]. reflexivity.
Qed.

(** ** The camera stack *)





(** [pop] raises [ValueError] exactly when one entry is left, among the
    stacks that hold an entry. *)
Lemma pop_value_error (self : Stack.CameraStack) :
  snd (Stack.pop self) = Raise ValueError <-> Stack.size self = 1%nat.
Proof.
  unfold Stack.size, Stack.pop.
  destruct (Nat.eqb_spec (length (Stack._stack self)) 1) as [E|Hne].
  - cbn. tauto.
  - destruct (Stack.list_pop (Stack._stack self)) as [[top rest]|]; cbn;
      split; (discriminate || contradiction).
Qed.

(** C2: a freshly constructed stack is empty, popping it raises the
    [IndexError] of popping an empty list, and popping after one push raises
    [ValueError] and leaves the pushed state on the stack. *)
Theorem C2_fresh_stack_push_pop (context : Stack.ArcadeContext) (st : Stack.CameraState) :
  Stack.size (Stack.__init__ context) = 0%nat /\
  Stack.pop (Stack.__init__ context) = (Stack.__init__ context, Raise IndexError) /\
  Stack.pop (Stack.push st (Stack.__init__ context)) =
    (Stack.push st (Stack.__init__ context), Raise ValueError).
Proof. repeat split. Qed.

(** C6: after [clear] the stack holds no entry at all. *)
Theorem C6_clear_empties_stack (self : Stack.CameraStack) :
  Stack.size (Stack.clear self) = 0%nat /\
  Stack.peek (Stack.clear self) = Raise IndexError.
Proof. split; reflexivity. Qed.

(** ** Unprojection *)

Lemma generate_projection_near_far (self : Perspective.PerspectiveProjector) :
  near (Perspective._projection self) = far (Perspective._projection self) ->
  Perspective._generate_projection_matrix self = Raise ZeroDivisionError.
Proof.
  intros Hnf.
  unfold Perspective._generate_projection_matrix, Pyglet.perspective_projection, pydiv, rbind.
  destruct (Req_dec_T _ _) as [_|_]; [reflexivity|].
  destruct (Req_dec_T _ _) as [_|Hne]; [reflexivity|].
  exfalso. apply Hne. rewrite Hnf. ring.
Qed.

Lemma generate_projection_shape (self : Perspective.PerspectiveProjector) (P : Pyglet.Mat4) :
  Perspective._generate_projection_matrix self = Ok P ->
  exists w h q qn, P = [ w; 0; 0; 0;  0; h; 0; 0;  0; 0; q; - 1;  0; 0; qn; 0 ].
Proof.
  unfold Perspective._generate_projection_matrix, Pyglet.perspective_projection, pydiv, rbind.
  repeat (destruct (Req_dec_T _ _); [discriminate|]).
  intros H. injection H as <-. do 4 eexists. reflexivity.
Qed.

Lemma screen_axis_raises (c : R) (origin extent : Z) (e : exn) :
  Perspective.screen_axis c origin extent = Raise e -> e = ZeroDivisionError.
Proof.
  unfold Perspective.screen_axis, pydiv, rbind.
  destruct (Req_dec_T _ _); [|discriminate]. intros H. now injection H as <-.
Qed.

Lemma screen_axis_ok (c : R) (origin extent : Z) :
  IZR extent <> 0 ->
  Perspective.screen_axis c origin extent = Ok (2 * (c - IZR origin) / IZR extent - 1).
Proof.
  intros Hne. unfold Perspective.screen_axis, pydiv, rbind.
  destruct (Req_dec_T _ _); [contradiction|reflexivity].
Qed.

(** Every error of [map_coordinate] is the [ZeroDivisionError] of one of its
    divisions. *)
Lemma map_coordinate_raises (self : Perspective.PerspectiveProjector)
    (screen_coordinate : Tuple2) (e : exn) :
  Perspective.map_coordinate self screen_coordinate = Raise e -> e = ZeroDivisionError.
Proof.
  unfold Perspective.map_coordinate.
  destruct (viewport (Perspective._view self)) as [[[vx vy] vw] vh].
  destruct (Perspective.screen_axis _ vx vw) as [sx|e1] eqn:E1; cbn [rbind].
  2:{ intros H. injection H as <-. exact (screen_axis_raises _ _ _ _ E1). }
  destruct (Perspective.screen_axis _ vy vh) as [sy|e2] eqn:E2; cbn [rbind].
  2:{ intros H. injection H as <-. exact (screen_axis_raises _ _ _ _ E2). }
  destruct (Perspective._generate_projection_matrix self) as [P|e3] eqn:E3; cbn [rbind].
  2:{ intros H. injection H as <-. exact (generate_projection_raises _ _ E3). }
  destruct (Pyglet.matvec _ _) as [[[m0 m1] m2] m3]. discriminate.
Qed.

Lemma map_coordinate_near_far (self : Perspective.PerspectiveProjector)
    (screen_coordinate : Tuple2) :
  near (Perspective._projection self) = far (Perspective._projection self) ->
  Perspective.map_coordinate self screen_coordinate = Raise ZeroDivisionError.
Proof.
  intros Hnf. pose proof (map_coordinate_raises self screen_coordinate) as Hr.
  unfold Perspective.map_coordinate in *.
  destruct (viewport (Perspective._view self)) as [[[vx vy] vw] vh].
  destruct (Perspective.screen_axis _ vx vw) as [sx|e1]; cbn [rbind] in *.
  2:{ now rewrite (Hr e1 eq_refl). }
  destruct (Perspective.screen_axis _ vy vh) as [sy|e2]; cbn [rbind] in *.
  2:{ now rewrite (Hr e2 eq_refl). }
  now rewrite (generate_projection_near_far self Hnf).
Qed.

Lemma map_coordinate_defined (self : Perspective.PerspectiveProjector)
    (screen_coordinate : Tuple2) :
  viewport_defined self -> projection_defined self ->
  exists xy, Perspective.map_coordinate self screen_coordinate = Ok xy.
Proof.
  unfold viewport_defined, Perspective.map_coordinate. intros Hv Hp.
  destruct (viewport (Perspective._view self)) as [[[vx vy] vw] vh].
  destruct Hv as [Hw Hh].
  rewrite (screen_axis_ok _ vx vw Hw), (screen_axis_ok _ vy vh Hh). cbn [rbind].
  destruct (generate_projection_ok self Hp) as [P ->]. cbn [rbind].
  destruct (Pyglet.matvec _ _) as [[[m0 m1] m2] m3]. eexists. reflexivity.
Qed.


Lemma degenerate_view_matrix :
  Perspective._generate_view_matrix degenerate_projector =
  [ 0; 0; 0; 0;  0; 0; 0; 0;  0; 0; 1; 0;  0; 0; 0; 1 ].
Proof.
  unfold Perspective._generate_view_matrix, degenerate_projector.
  cbn [forward up position Perspective._view].
  rewrite (normalize_nonzero 0 0 (- 1) 1 magnitude_0_0_m1) by lra.
  cbn. list_eq_field.
Qed.

Lemma degenerate_projection_defined : projection_defined degenerate_projector.
Proof. exact default_projection_defined. Qed.

Lemma degenerate_viewport_defined : viewport_defined degenerate_projector.
Proof. cbn. split; lra. Qed.

(** With two zero columns in the view matrix the product is singular and
    sends every point to a vector whose first two components are 0. *)
Lemma degenerate_product (w h q qn : R) :
  let M := Pyglet.matmul [ w; 0; 0; 0;  0; h; 0; 0;  0; 0; q; - 1;  0; 0; qn; 0 ]
                         [ 0; 0; 0; 0;  0; 0; 0; 0;  0; 0; 1; 0;  0; 0; 0; 1 ] in
  Pyglet.det M = 0 /\
  forall x y z t, fst (fst (Pyglet.matvec M (x, y, z, t))) = (0, 0).
Proof.
  cbn. unfold Pyglet.det, Pyglet.get. cbn [nth]. split; [ring|].
  intros x y z t. unfold Pyglet.get. cbn [nth fst]. f_equal; ring.
Qed.

Lemma degenerate_map_coordinate (screen_coordinate : Tuple2) :
  exists M,
    combined_matrix degenerate_projector = Ok M /\
    Pyglet.det M = 0 /\
    Perspective.map_coordinate degenerate_projector screen_coordinate = Ok (0, 0).
Proof.
  destruct (generate_projection_ok _ degenerate_projection_defined) as [P HP].
  destruct (generate_projection_shape _ _ HP) as (w & h & q & qn & ->).
  destruct (degenerate_product w h q qn) as [Hdet Hvec]. cbv zeta in Hdet, Hvec.
  eexists. split; [|split].
  - unfold combined_matrix. rewrite HP, degenerate_view_matrix. reflexivity.
  - exact Hdet.
  - unfold Perspective.map_coordinate.
    change (viewport (Perspective._view degenerate_projector)) with (0, 0, 800, 600)%Z.
    cbv iota beta.
    rewrite !screen_axis_ok by lra. cbn [rbind].
    rewrite HP, degenerate_view_matrix. cbn [rbind].
    unfold Pyglet.invert at 1. rewrite Hdet.
    destruct (Req_dec_T 0 0) as [_|Hne]; [|contradiction].
    match goal with |- context [Pyglet.matvec ?M ?v] =>
      pose proof (Hvec (fst (fst (fst v))) (snd (fst (fst v))) (snd (fst v)) (snd v)) as Hv;
      cbn [fst snd] in Hv; destruct (Pyglet.matvec M v) as [[[m0 m1] m2] m3] end.
    cbn [fst] in Hv. now rewrite Hv.
Qed.

(** C7 (as stated): for the projector whose [up] is parallel to [forward],
    [projection @ view] is singular, and [map_coordinate] raises nothing: it
    returns [(0, 0)]. *)
Lemma C7_counterexample :
  exists M,
    combined_matrix degenerate_projector = Ok M /\
    Pyglet.det M = 0 /\
    Perspective.map_coordinate degenerate_projector (400, 300) = Ok (0, 0).
Proof. exact (degenerate_map_coordinate (400, 300)). Qed.

(** C7 (amended): [map_coordinate] makes no invertibility check of its own.
    When near and far coincide it fails with the [ZeroDivisionError] of
    building the projection matrix; whenever its divisions are defined it
    returns coordinates, singular matrix or not. *)
Theorem C7_map_coordinate_errors (self : Perspective.PerspectiveProjector)
    (screen_coordinate : Tuple2) :
  (near (Perspective._projection self) = far (Perspective._projection self) ->
   Perspective.map_coordinate self screen_coordinate = Raise ZeroDivisionError) /\
  (viewport_defined self -> projection_defined self ->
   exists xy, Perspective.map_coordinate self screen_coordinate = Ok xy).
Proof.
  split.
  - apply map_coordinate_near_far.
  - apply map_coordinate_defined.
Qed.

Lemma C7_witness :
  (near (Perspective._projection flat_projector) = far (Perspective._projection flat_projector) /\
   Perspective.map_coordinate flat_projector (400, 300) = Raise ZeroDivisionError) /\
  (viewport_defined degenerate_projector /\ projection_defined degenerate_projector /\
   exists xy, Perspective.map_coordinate degenerate_projector (400, 300) = Ok xy).
Proof.
  split.
  - split; [reflexivity|].
    apply (proj1 (C7_map_coordinate_errors flat_projector (400, 300))). reflexivity.
  - split; [exact degenerate_viewport_defined|].
    split; [exact degenerate_projection_defined|].
    apply (proj2 (C7_map_coordinate_errors degenerate_projector (400, 300))).
    + exact degenerate_viewport_defined.
    + exact degenerate_projection_defined.
Defined.

(** ** Further properties of the motion controllers *)

Lemma follow_n_frame (n : nat) (speed : R) (target : Tuple3) (data : CameraData) :
  viewport (follow_n n speed target data) = viewport data /\
  up (follow_n n speed target data) = up data /\
  forward (follow_n n speed target data) = forward data /\
  zoom (follow_n n speed target data) = zoom data.
Proof.
  revert data. induction n as [|k IH]; intros data; cbn [follow_n].
  - repeat split.
  - destruct (IH (Controllers.simple_follow speed target data)) as (H1 & H2 & H3 & H4).
    rewrite H1, H2, H3, H4. repeat split.
Qed.

Lemma follow_n_position (n : nat) (t tx ty tz : R) (data : CameraData) :
  let '(x, y, z) := position data in
  position (follow_n n t (tx, ty, tz) data) =
    (tx + (1 - t) ^ n * (x - tx), ty + (1 - t) ^ n * (y - ty), tz + (1 - t) ^ n * (z - tz)).
Proof.
  revert data. induction n as [|k IH]; intros data.
  - destruct data as [vp [[x y] z] u f zm]. cbn. apply tuple3_eq; ring.
  - cbn [follow_n]. specialize (IH (Controllers.simple_follow t (tx, ty, tz) data)).
    destruct data as [vp [[x y] z] u f zm]. cbn in IH |- *. rewrite IH.
    apply tuple3_eq; ring.
Qed.

(** X1: after [n] calls of [simple_follow] with speed [t] the offset of the
    camera from the target is [(1 - t) ^ n] times the initial offset, on each
    axis, and nothing but the position has changed. *)
Theorem X1_simple_follow_geometric (n : nat) (t tx ty tz : R) (data : CameraData) :
  let data' := follow_n n t (tx, ty, tz) data in
  (let '(x, y, z) := position data in
   position data' =
     (tx + (1 - t) ^ n * (x - tx), ty + (1 - t) ^ n * (y - ty), tz + (1 - t) ^ n * (z - tz))) /\
  viewport data' = viewport data /\ up data' = up data /\
  forward data' = forward data /\ zoom data' = zoom data.
Proof.
  intros data'. split.
  - apply follow_n_position.
  - apply follow_n_frame.
Qed.

(** X2: with a speed between 0 and 1, [simple_follow] never moves the camera
    away from the target or past it: on each axis the new coordinate lies
    between the old one and the target's. *)
Theorem X2_simple_follow_no_overshoot (t : R) (target : Tuple3) (data : CameraData) :
  0 <= t <= 1 ->
  let '(x, y, z) := position data in
  let '(tx, ty, tz) := target in
  let '(x', y', z') := position (Controllers.simple_follow t target data) in
  (Rmin x tx <= x' <= Rmax x tx) /\ (Rmin y ty <= y' <= Rmax y ty) /\
  (Rmin z tz <= z' <= Rmax z tz).
Proof.
  intros Ht. destruct data as [vp [[x y] z] u f zm], target as [[tx ty] tz]. cbn.
  assert (H : forall a b, Rmin a b <= a + t * (b - a) <= Rmax a b).
  { intros a b. unfold Rmin, Rmax. destruct (Rle_dec a b); nra. }
  repeat split; apply H.
Qed.

Lemma X2_witness :
  let data := mkCameraData (0, 0, 800, 600)%Z (0, 0, 0) (0, 1, 0) (0, 0, - 1) 1 in
  0 <= 1 / 2 <= 1 /\
  let '(x', y', z') := position (Controllers.simple_follow (1 / 2) (10, 0, 0) data) in
  (Rmin 0 10 <= x' <= Rmax 0 10) /\ (Rmin 0 0 <= y' <= Rmax 0 0) /\
  (Rmin 0 0 <= z' <= Rmax 0 0).
Proof.
  intros data. split; [lra|].
  apply (X2_simple_follow_no_overshoot (1 / 2) (10, 0, 0) data). lra.
Defined.

(** X3: [simple_easing_2D] places the camera at the eased point of the
    segment in the plane z = 0, whatever its position (and z) was before,
    and changes nothing but the position. *)
Theorem X3_simple_easing_2D_plane (percent sx sy tx ty : R) (data : CameraData)
    (func : R -> R) :
  let data' := Controllers.simple_easing_2D percent (sx, sy) (tx, ty) data func in
  position data' =
    (sx + func percent * (tx - sx), sy + func percent * (ty - sy), 0) /\
  viewport data' = viewport data /\ up data' = up data /\
  forward data' = forward data /\ zoom data' = zoom data.
Proof.
  cbn. repeat split. apply tuple3_eq; ring.
Qed.

(** ** Further properties of the quaternion rotation *)

Lemma half_angle_0 : half_angle 0 = 0.
Proof. unfold half_angle, radians. field. Qed.

Lemma half_angle_plus (a b : R) : half_angle (a + b) = half_angle a + half_angle b.
Proof. unfold half_angle, radians. field. Qed.

Lemma half_angle_360 : half_angle 360 = - PI.
Proof. unfold half_angle, radians. field. Qed.

(** Two sandwiches in a row are the sandwich of the Hamilton product. *)
Lemma sandwich_hamilton (q0 q1 q2 q3 p0 p1 p2 p3 : R) (v : Tuple3) :
  sandwich q0 q1 q2 q3 (sandwich p0 p1 p2 p3 v) =
  let '(r0, r1, r2, r3) := hamilton (q0, q1, q2, q3) (p0, p1, p2, p3) in
  sandwich r0 r1 r2 r3 v.
Proof.
  destruct v as [[v1 v2] v3]. unfold hamilton, sandwich. apply tuple3_eq; ring.
Qed.

(** The sandwich scales dot products by the squared norm of the
    quaternion, squared. *)
Lemma sandwich_dot (q0 q1 q2 q3 : R) (u v : Tuple3) :
  Pyglet.dot (sandwich q0 q1 q2 q3 u) (sandwich q0 q1 q2 q3 v) =
  (q0 ^ 2 + q1 ^ 2 + q2 ^ 2 + q3 ^ 2) ^ 2 * Pyglet.dot u v.
Proof.
  destruct u as [[u1 u2] u3], v as [[v1 v2] v3]. unfold sandwich, Pyglet.dot. ring.
Qed.

Lemma magnitude_dot (v : Tuple3) : magnitude v = sqrt (Pyglet.dot v v).
Proof.
  destruct v as [[x y] z]. unfold magnitude, Pyglet.dot. f_equal. ring.
Qed.

(** X4: a rotation by 0 degrees is the identity for every axis, unit
    length or not. *)
Theorem X4_quaternion_rotation_zero (axis v : Tuple3) :
  Controllers.quaternion_rotation axis v 0 = v.
Proof.
  destruct axis as [[a1 a2] a3], v as [[v1 v2] v3].
  rewrite quaternion_rotation_sandwich, half_angle_0, cos_0, sin_0.
  unfold sandwich. apply tuple3_eq; ring.
Qed.

(** X5: [quaternion_rotation] has period 360 degrees in its angle, for
    every axis: the quaternion only changes sign. *)
Theorem X5_quaternion_rotation_periodic (axis v : Tuple3) (angle : R) :
  Controllers.quaternion_rotation axis v (angle + 360) =
  Controllers.quaternion_rotation axis v angle.
Proof.
  destruct axis as [[a1 a2] a3], v as [[v1 v2] v3].
  rewrite !quaternion_rotation_sandwich, half_angle_plus, half_angle_360.
  rewrite cos_plus, sin_plus, cos_neg, sin_neg, cos_PI, sin_PI.
  unfold sandwich. apply tuple3_eq; ring.
Qed.

(** X6: for any axis, [quaternion_rotation] multiplies the length of the
    vector by [cos(h)^2 + sin(h)^2 * |axis|^2], where [h] is half the negated
    angle in radians: an axis that is not of unit length rescales the
    result. *)
Theorem X6_quaternion_rotation_scaling (a1 a2 a3 : R) (v : Tuple3) (angle : R) :
  magnitude (Controllers.quaternion_rotation (a1, a2, a3) v angle) =
  (cos (- radians angle / 2) ^ 2
   + sin (- radians angle / 2) ^ 2 * (a1 ^ 2 + a2 ^ 2 + a3 ^ 2)) * magnitude v.
Proof.
  fold (half_angle angle). rewrite quaternion_rotation_sandwich, !magnitude_dot, sandwich_dot.
  set (c := cos (half_angle angle)). set (s := sin (half_angle angle)).
  replace (c ^ 2 + (s * a1) ^ 2 + (s * a2) ^ 2 + (s * a3) ^ 2)
    with (c ^ 2 + s ^ 2 * (a1 ^ 2 + a2 ^ 2 + a3 ^ 2)) by ring.
  set (k := c ^ 2 + s ^ 2 * (a1 ^ 2 + a2 ^ 2 + a3 ^ 2)).
  assert (Hk : 0 <= k) by (unfold k; nra).
  rewrite sqrt_mult_alt by nra.
  replace (k ^ 2) with (k * k) by ring. now rewrite sqrt_square.
Qed.

(** X7: two rotations about the same unit axis compose to the rotation by
    the sum of the angles. *)
Theorem X7_quaternion_rotation_compose (axis v : Tuple3) (alpha beta : R) :
  magnitude axis = 1 ->
  Controllers.quaternion_rotation axis
    (Controllers.quaternion_rotation axis v alpha) beta =
  Controllers.quaternion_rotation axis v (alpha + beta).
Proof.
  destruct axis as [[a1 a2] a3]. intros Hu. apply unit_norm2 in Hu.
  rewrite !quaternion_rotation_sandwich, half_angle_plus, cos_plus, sin_plus.
  rewrite sandwich_hamilton. unfold hamilton.
  set (c1 := cos (half_angle alpha)). set (s1 := sin (half_angle alpha)).
  set (c2 := cos (half_angle beta)). set (s2 := sin (half_angle beta)).
  replace (c1 * c2 - s1 * s2)
    with (c1 * c2 - s1 * s2 * (a1 ^ 2 + a2 ^ 2 + a3 ^ 2)) by (rewrite Hu; ring).
  f_equal; ring.
Qed.

Lemma X7_witness :
  magnitude (1, 0, 0) = 1 /\
  Controllers.quaternion_rotation (1, 0, 0)
    (Controllers.quaternion_rotation (1, 0, 0) (1, 2, 3) 30) 60 =
  Controllers.quaternion_rotation (1, 0, 0) (1, 2, 3) (30 + 60).
Proof.
  split; [exact magnitude_unit_x|].
  apply (X7_quaternion_rotation_compose (1, 0, 0) (1, 2, 3) 30 60).
  exact magnitude_unit_x.
Defined.

(** X8: a rotation about a unit axis preserves dot products, hence the
    angle between any two rotated vectors, and leaves the axis itself where
    it is. *)
Theorem X8_quaternion_rotation_dot_axis (axis u v : Tuple3) (angle : R) :
  magnitude axis = 1 ->
  Pyglet.dot (Controllers.quaternion_rotation axis u angle)
             (Controllers.quaternion_rotation axis v angle) = Pyglet.dot u v /\
  Controllers.quaternion_rotation axis axis angle = axis.
Proof.
  destruct axis as [[a1 a2] a3]. intros Hu. apply unit_norm2 in Hu.
  pose proof (unit_quaternion (half_angle angle) _ _ _ Hu) as Hq.
  rewrite !quaternion_rotation_sandwich. split.
  - rewrite sandwich_dot, Hq. ring.
  - now apply sandwich_axis.
Qed.

Lemma X8_witness :
  magnitude (1, 0, 0) = 1 /\
  Pyglet.dot (Controllers.quaternion_rotation (1, 0, 0) (0, 1, 0) 40)
             (Controllers.quaternion_rotation (1, 0, 0) (1, 2, 3) 40)
    = Pyglet.dot (0, 1, 0) (1, 2, 3) /\
  Controllers.quaternion_rotation (1, 0, 0) (1, 0, 0) 40 = (1, 0, 0).
Proof.
  split; [exact magnitude_unit_x|].
  apply (X8_quaternion_rotation_dot_axis (1, 0, 0) (0, 1, 0) (1, 2, 3) 40).
  exact magnitude_unit_x.
Defined.

(** ** Roll and yaw *)

Lemma quaternion_rotation_dot (axis u v : Tuple3) (angle : R) :
  magnitude axis = 1 ->
  Pyglet.dot (Controllers.quaternion_rotation axis u angle)
             (Controllers.quaternion_rotation axis v angle) = Pyglet.dot u v.
Proof.
  destruct axis as [[a1 a2] a3]. intros Hu. apply unit_norm2 in Hu.
  pose proof (unit_quaternion (half_angle angle) _ _ _ Hu) as Hq.
  rewrite !quaternion_rotation_sandwich, sandwich_dot, Hq. ring.
Qed.

Lemma quaternion_rotation_axis (axis : Tuple3) (angle : R) :
  magnitude axis = 1 -> Controllers.quaternion_rotation axis axis angle = axis.
Proof.
  destruct axis as [[a1 a2] a3]. intros Hu. apply unit_norm2 in Hu.
  rewrite quaternion_rotation_sandwich.
  apply sandwich_axis, unit_quaternion, Hu.
Qed.

(** The component of a vector along the unit axis is not changed. *)
Lemma quaternion_rotation_dot_axis (axis v : Tuple3) (angle : R) :
  magnitude axis = 1 ->
  Pyglet.dot axis (Controllers.quaternion_rotation axis v angle) = Pyglet.dot axis v.
Proof.
  intros Hu. rewrite <- (quaternion_rotation_axis axis angle Hu) at 1.
  now apply quaternion_rotation_dot.
Qed.

Lemma camera_data_eta (d : CameraData) :
  mkCameraData (viewport d) (position d) (up d) (forward d) (zoom d) = d.
Proof. destruct d. reflexivity. Qed.

(** X9: a roll ([rotate_around_forward]) about a unit [forward] changes
    only [up]; it keeps the length of [up] and its dot product with
    [forward], and the roll by the opposite angle undoes it. *)
Theorem X9_rotate_around_forward_roll (data : CameraData) (angle : R) :
  magnitude (forward data) = 1 ->
  let data' := Controllers.rotate_around_forward data angle in
  (viewport data' = viewport data /\ position data' = position data /\
   forward data' = forward data /\ zoom data' = zoom data) /\
  magnitude (up data') = magnitude (up data) /\
  Pyglet.dot (forward data') (up data') = Pyglet.dot (forward data) (up data) /\
  Controllers.rotate_around_forward data' (- angle) = data.
Proof.
  intros Hu data'. subst data'. unfold Controllers.rotate_around_forward, set_up.
  cbn [viewport position up forward zoom].
  split; [repeat split|]. split; [|split].
  - now apply quaternion_rotation_magnitude.
  - now apply quaternion_rotation_dot_axis.
  - rewrite (quaternion_rotation_inverse _ _ _ Hu). apply camera_data_eta.
Qed.

Lemma X9_witness :
  let data := mkCameraData (0, 0, 800, 600)%Z (1, 2, 3) (0, 3, 4) (1, 0, 0) 1 in
  magnitude (forward data) = 1 /\
  magnitude (up (Controllers.rotate_around_forward data 25)) = magnitude (up data) /\
  Controllers.rotate_around_forward (Controllers.rotate_around_forward data 25) (- 25) = data.
Proof.
  intros data.
  pose proof (X9_rotate_around_forward_roll data 25 magnitude_unit_x) as (_ & H1 & _ & H2).
  split; [exact magnitude_unit_x|]. split; [exact H1|exact H2].
Defined.

(** X10: a yaw ([rotate_around_up]) about a unit [up] changes only
    [forward]; it keeps the length of [forward] and its dot product with
    [up], and the yaw by the opposite angle undoes it. *)
Theorem X10_rotate_around_up_yaw (data : CameraData) (angle : R) :
  magnitude (up data) = 1 ->
  let data' := Controllers.rotate_around_up data angle in
  (viewport data' = viewport data /\ position data' = position data /\
   up data' = up data /\ zoom data' = zoom data) /\
  magnitude (forward data') = magnitude (forward data) /\
  Pyglet.dot (up data') (forward data') = Pyglet.dot (up data) (forward data) /\
  Controllers.rotate_around_up data' (- angle) = data.
Proof.
  intros Hu data'. subst data'. unfold Controllers.rotate_around_up, set_forward.
  cbn [viewport position up forward zoom].
  split; [repeat split|]. split; [|split].
  - now apply quaternion_rotation_magnitude.
  - now apply quaternion_rotation_dot_axis.
  - rewrite (quaternion_rotation_inverse _ _ _ Hu). apply camera_data_eta.
Qed.

Lemma X10_witness :
  let data := mkCameraData (0, 0, 800, 600)%Z (1, 2, 3) (1, 0, 0) (0, 3, 4) 1 in
  magnitude (up data) = 1 /\
  magnitude (forward (Controllers.rotate_around_up data 25)) = magnitude (forward data) /\
  Controllers.rotate_around_up (Controllers.rotate_around_up data 25) (- 25) = data.
Proof.
  intros data.
  pose proof (X10_rotate_around_up_yaw data 25 magnitude_unit_x) as (_ & H1 & _ & H2).
  split; [exact magnitude_unit_x|]. split; [exact H1|exact H2].
Defined.

(** ** Further properties of the projection matrix and of [use] *)

Lemma projection_closed_form_ok (self : Perspective.PerspectiveProjector) :
  projection_defined self ->
  Perspective._generate_projection_matrix self = Ok (projection_closed_form self).
Proof.
  intros (Hz & Hd & Ht & Ha).
  unfold Perspective._generate_projection_matrix, Pyglet.perspective_projection, pydiv, rbind.
  destruct (Req_dec_T _ _) as [E|_]; [contradiction|].
  destruct (Req_dec_T _ _) as [E|_]; [contradiction|].
  destruct (Req_dec_T _ _) as [E|_]; [exfalso; apply Ht; lra|].
  destruct (Req_dec_T _ _) as [E|_]; [contradiction|].
  unfold projection_closed_form. apply f_equal.
  assert (Hn : near (Perspective._projection self) <> 0)
    by (intros E; apply Ht; rewrite E; ring).
  assert (Htan : tan (fov (Perspective._projection self)
                      / zoom (Perspective._view self) * PI / 360) <> 0)
    by (intros E; apply Ht; rewrite E; ring).
  list_eq_field; repeat split; auto; lra.
Qed.

(** X12: when zoom, far - near, the near-plane extent and the aspect ratio
    are non-zero, [_generate_projection_matrix] returns the perspective
    matrix with focal entries [1 / (tan * aspect)] and [1 / tan] of the
    angle [fov / zoom] halved: the entries do not depend on the window and
    the focal entries do not depend on near and far. *)
Theorem X12_projection_matrix_closed_form (self : Perspective.PerspectiveProjector) :
  projection_defined self ->
  Perspective._generate_projection_matrix self = Ok (projection_closed_form self).
Proof. apply projection_closed_form_ok. Qed.

Lemma X12_witness :
  projection_defined default_projector /\
  Perspective._generate_projection_matrix default_projector
  = Ok (projection_closed_form default_projector).
Proof.
  split; [exact default_projection_defined|].
  exact (X12_projection_matrix_closed_form default_projector default_projection_defined).
Defined.

(** The real tangent vanishes only at 0 strictly between its two poles
    next to 0. *)
Lemma tan_zero_in_range (x : R) : - PI / 2 < x < PI / 2 -> tan x = 0 -> x = 0.
Proof.
  intros [Hlo Hhi] Ht. pose proof PI_RGT_0 as Hpi.
  destruct (Rtotal_order x 0) as [Hlt|[Heq|Hgt]]; [|exact Heq|].
  - pose proof (tan_increasing x 0 Hlo Hlt ltac:(lra)) as H. rewrite tan_0 in H. lra.
  - pose proof (tan_increasing 0 x ltac:(lra) Hgt Hhi) as H. rewrite tan_0 in H. lra.
Qed.

Lemma half_fov_range (q : R) : - 180 < q < 180 -> - PI / 2 < q * PI / 360 < PI / 2.
Proof. intros [Hlo Hhi]. pose proof PI_RGT_0 as Hpi. split; nra. Qed.

(** A zero among zoom, far - near, near, fov and aspect makes a divisor of
    [_generate_projection_matrix] zero. *)
Lemma projection_zero_divisor_raises (self : Perspective.PerspectiveProjector) :
  zoom (Perspective._view self) = 0 \/
  far (Perspective._projection self) = near (Perspective._projection self) \/
  near (Perspective._projection self) = 0 \/
  fov (Perspective._projection self) = 0 \/
  aspect (Perspective._projection self) = 0 ->
  Perspective._generate_projection_matrix self = Raise ZeroDivisionError.
Proof.
  intros Hzero.
  destruct (Perspective._generate_projection_matrix self) as [P|e] eqn:E.
  - exfalso. revert E.
    unfold Perspective._generate_projection_matrix, Pyglet.perspective_projection,
      pydiv, rbind.
    destruct (Req_dec_T _ _) as [|Hz]; [discriminate|].
    destruct (Req_dec_T _ _) as [|Hd]; [discriminate|].
    destruct (Req_dec_T _ _) as [|Hw]; [discriminate|].
    destruct (Req_dec_T _ _) as [|Ha]; [discriminate|].
    intros _. destruct Hzero as [H|[H|[H|[H|H]]]].
    + contradiction.
    + apply Hd. rewrite H. ring.
    + apply Hw. rewrite H. ring.
    + apply Hw. rewrite H.
      replace (0 / zoom (Perspective._view self) * PI / 360) with 0 by (field; exact Hz).
      rewrite tan_0. ring.
    + contradiction.
  - now rewrite (generate_projection_raises self e E).
Qed.

(** With an effective field of view strictly between -180 and 180 degrees
    the divisors are non-zero as soon as far - near, near, fov and aspect
    are. *)
Lemma projection_defined_in_range (self : Perspective.PerspectiveProjector) :
  zoom (Perspective._view self) <> 0 ->
  - 180 < fov (Perspective._projection self) / zoom (Perspective._view self) < 180 ->
  far (Perspective._projection self) <> near (Perspective._projection self) ->
  near (Perspective._projection self) <> 0 ->
  fov (Perspective._projection self) <> 0 ->
  aspect (Perspective._projection self) <> 0 ->
  projection_defined self.
Proof.
  intros Hz Hr Hfn Hn Hf Ha. unfold projection_defined. cbv zeta.
  split; [exact Hz|]. split; [lra|]. split; [|exact Ha].
  intros E. apply Rmult_integral in E. destruct E as [E|E]; [contradiction|].
  apply (tan_zero_in_range _ (half_fov_range _ Hr)) in E.
  pose proof PI_RGT_0 as Hpi.
  assert (Hq : fov (Perspective._projection self) / zoom (Perspective._view self) = 0) by nra.
  apply Hf.
  replace (fov (Perspective._projection self))
    with (fov (Perspective._projection self) / zoom (Perspective._view self)
          * zoom (Perspective._view self)) by (field; exact Hz).
  rewrite Hq. ring.
Qed.

(** X13: [_generate_projection_matrix] only ever fails with
    [ZeroDivisionError]; it fails whenever zoom, far - near, near, fov or
    aspect is zero; and for an effective field of view [fov / zoom] strictly
    between -180 and 180 degrees these are its only failures. *)
Theorem X13_projection_matrix_error (self : Perspective.PerspectiveProjector) :
  (forall e, Perspective._generate_projection_matrix self = Raise e -> e = ZeroDivisionError) /\
  (zoom (Perspective._view self) = 0 \/
   far (Perspective._projection self) = near (Perspective._projection self) \/
   near (Perspective._projection self) = 0 \/
   fov (Perspective._projection self) = 0 \/
   aspect (Perspective._projection self) = 0 ->
   Perspective._generate_projection_matrix self = Raise ZeroDivisionError) /\
  (zoom (Perspective._view self) <> 0 ->
   - 180 < fov (Perspective._projection self) / zoom (Perspective._view self) < 180 ->
   Perspective._generate_projection_matrix self = Raise ZeroDivisionError ->
   far (Perspective._projection self) = near (Perspective._projection self) \/
   near (Perspective._projection self) = 0 \/
   fov (Perspective._projection self) = 0 \/
   aspect (Perspective._projection self) = 0).
Proof.
  split; [apply generate_projection_raises|]. split; [apply projection_zero_divisor_raises|].
  intros Hz Hr E.
  destruct (Req_dec_T (far (Perspective._projection self))
                      (near (Perspective._projection self))) as [|Hfn]; [tauto|].
  destruct (Req_dec_T (near (Perspective._projection self)) 0) as [|Hn]; [tauto|].
  destruct (Req_dec_T (fov (Perspective._projection self)) 0) as [|Hf]; [tauto|].
  destruct (Req_dec_T (aspect (Perspective._projection self)) 0) as [|Ha]; [tauto|].
  exfalso.
  rewrite (projection_closed_form_ok self
             (projection_defined_in_range self Hz Hr Hfn Hn Hf Ha)) in E.
  discriminate.
Qed.

Lemma flat_projection_raises :
  Perspective._generate_projection_matrix flat_projector = Raise ZeroDivisionError.
Proof. exact (generate_projection_near_far flat_projector eq_refl). Qed.

Lemma X13_witness :
  (far (Perspective._projection flat_projector) = near (Perspective._projection flat_projector) /\
   Perspective._generate_projection_matrix flat_projector = Raise ZeroDivisionError) /\
  (zoom (Perspective._view flat_projector) <> 0 /\
   - 180 < fov (Perspective._projection flat_projector)
           / zoom (Perspective._view flat_projector) < 180 /\
   (far (Perspective._projection flat_projector) = near (Perspective._projection flat_projector) \/
    near (Perspective._projection flat_projector) = 0 \/
    fov (Perspective._projection flat_projector) = 0 \/
    aspect (Perspective._projection flat_projector) = 0)).
Proof.
  assert (Hz : zoom (Perspective._view flat_projector) <> 0) by (cbn; lra).
  assert (Hr : - 180 < fov (Perspective._projection flat_projector)
                       / zoom (Perspective._view flat_projector) < 180) by (cbn; lra).
  split.
  - split; [reflexivity|].
    exact (proj1 (proj2 (X13_projection_matrix_error flat_projector))
             (or_intror (or_introl eq_refl))).
  - split; [exact Hz|]. split; [exact Hr|].
    exact (proj2 (proj2 (X13_projection_matrix_error flat_projector)) Hz Hr
             flat_projection_raises).
Defined.

(** X14: zoom is a scaling of the field of view: multiplying both [fov]
    and [zoom] by the same non-zero factor gives the same projection matrix
    (or the same error). *)
Theorem X14_zoom_scales_fov (vp : Viewport) (pos u f : Tuple3) (zm a fv n fr k : R) :
  k <> 0 ->
  Perspective._generate_projection_matrix
    (Perspective.mkProjector (mkCameraData vp pos u f (k * zm))
                             (mkPerspectiveProjectionData a (k * fv) n fr)) =
  Perspective._generate_projection_matrix
    (Perspective.mkProjector (mkCameraData vp pos u f zm)
                             (mkPerspectiveProjectionData a fv n fr)).
Proof.
  intros Hk. unfold Perspective._generate_projection_matrix. cbn [Perspective._view
    Perspective._projection zoom fov aspect near far]. unfold pydiv.
  destruct (Req_dec_T (k * zm) 0) as [E|Hne]; destruct (Req_dec_T zm 0) as [E'|Hne'].
  - reflexivity.
  - exfalso. apply Rmult_integral in E. tauto.
  - exfalso. apply Hne. rewrite E'. ring.
  - cbn [rbind]. replace (k * fv / (k * zm)) with (fv / zm) by (field; auto). reflexivity.
Qed.

Lemma X14_witness :
  2 <> 0 /\
  Perspective._generate_projection_matrix
    (Perspective.mkProjector (mkCameraData (0, 0, 800, 600)%Z (0, 0, 0) (0, 1, 0) (0, 0, - 1) (2 * 1))
                             (mkPerspectiveProjectionData (4 / 3) (2 * 45) (1 / 10) 1000)) =
  Perspective._generate_projection_matrix
    (Perspective.mkProjector (mkCameraData (0, 0, 800, 600)%Z (0, 0, 0) (0, 1, 0) (0, 0, - 1) 1)
                             (mkPerspectiveProjectionData (4 / 3) 45 (1 / 10) 1000)).
Proof.
  split; [lra|].
  apply (X14_zoom_scales_fov (0, 0, 800, 600)%Z (0, 0, 0) (0, 1, 0) (0, 0, - 1)
           1 (4 / 3) 45 (1 / 10) 1000 2). lra.
Defined.

(** ** Further properties of [use] and of the scoped activation *)

Lemma use_unfold (self : Perspective.ProjRef) (w : Perspective.World) :
  Perspective.use self w =
  match Perspective._generate_projection_matrix (Perspective.objects w self) with
  | Ok P => (Perspective.mkWorld (Perspective.objects w)
               (window_of self (Perspective.objects w self) P), Ok tt)
  | Raise e => (camera_switched self w, Raise e)
  end.
Proof.
  unfold Perspective.use, Perspective.bind, Perspective.lift. cbn.
  destruct (Perspective._generate_projection_matrix _); reflexivity.
Qed.

Lemma use_objects (self : Perspective.ProjRef) (w : Perspective.World) :
  Perspective.objects (fst (Perspective.use self w)) = Perspective.objects w.
Proof.
  rewrite use_unfold.
  destruct (Perspective._generate_projection_matrix _); reflexivity.
Qed.

Lemma use_idempotent (self : Perspective.ProjRef) (w : Perspective.World) :
  Perspective.use self (fst (Perspective.use self w)) = Perspective.use self w.
Proof.
  rewrite (use_unfold self (fst _)), use_objects, (use_unfold self w).
  destruct (Perspective._generate_projection_matrix _); reflexivity.
Qed.

(** The window a successful [use] leaves depends on the projector object
    alone. *)
Lemma use_window (self : Perspective.ProjRef) (w w' : Perspective.World) :
  Perspective.objects w' self = Perspective.objects w self ->
  snd (Perspective.use self w) = Ok tt ->
  Perspective.window (fst (Perspective.use self w'))
  = Perspective.window (fst (Perspective.use self w)) /\
  snd (Perspective.use self w') = Ok tt.
Proof.
  intros Ho. rewrite !use_unfold, Ho.
  destruct (Perspective._generate_projection_matrix _); [|discriminate].
  intros _. split; reflexivity.
Qed.

(** X15: when [_generate_projection_matrix] raises for the projector, [use]
    raises the same error, a [ZeroDivisionError], after it has already made
    the projector the current camera: the window keeps its old viewport and
    matrices under the new current camera. *)
Theorem X15_use_failure_switches_camera (self : Perspective.ProjRef) (w : Perspective.World)
    (e : exn) :
  Perspective._generate_projection_matrix (Perspective.objects w self) = Raise e ->
  Perspective.use self w = (camera_switched self w, Raise e) /\ e = ZeroDivisionError.
Proof.
  intros E. split.
  - rewrite use_unfold, E. reflexivity.
  - exact (generate_projection_raises _ e E).
Qed.

Lemma X15_witness :
  Perspective._generate_projection_matrix (Perspective.objects world_flat 1%nat)
  = Raise ZeroDivisionError /\
  Perspective.use 1%nat world_flat = (camera_switched 1%nat world_flat, Raise ZeroDivisionError).
Proof.
  split; [exact flat_projection_raises|].
  exact (proj1 (X15_use_failure_switches_camera 1%nat world_flat ZeroDivisionError
                  flat_projection_raises)).
Defined.

(** X16: when the projection matrix can be built, [use] succeeds and leaves
    a window that holds the projector as current camera, its viewport and its
    two matrices, whatever the window held before; [use] never changes a
    projector object, and using the same projector twice in a row is the same
    as using it once. *)
Theorem X16_use_installs_projector (self : Perspective.ProjRef) (w : Perspective.World) :
  (projection_defined (Perspective.objects w self) ->
   Perspective.use self w =
   (Perspective.mkWorld (Perspective.objects w)
      (window_of self (Perspective.objects w self)
         (projection_closed_form (Perspective.objects w self))), Ok tt)) /\
  Perspective.objects (fst (Perspective.use self w)) = Perspective.objects w /\
  Perspective.use self (fst (Perspective.use self w)) = Perspective.use self w.
Proof.
  split; [|split].
  - intros Hd. now rewrite use_unfold, (projection_closed_form_ok _ Hd).
  - apply use_objects.
  - apply use_idempotent.
Qed.

Lemma X16_witness :
  projection_defined (Perspective.objects world_no_camera 1%nat) /\
  Perspective.use 1%nat world_no_camera =
  (Perspective.mkWorld (Perspective.objects world_no_camera)
     (window_of 1%nat default_projector (projection_closed_form default_projector)), Ok tt).
Proof.
  split; [exact default_projection_defined|].
  exact (proj1 (X16_use_installs_projector 1%nat world_no_camera) default_projection_defined).
Defined.

(** X17: if the world is as [prev.use()] left it and the block does not
    modify the projector [prev], the scoped activation of any projector
    leaves the whole window (current camera, viewport, projection and view
    matrix) as it was on entry, whether the block returns or raises. *)
Theorem X17_activate_restores_window (A : Type) (self prev : Perspective.ProjRef)
    (block : Perspective.ProjRef -> Perspective.M A) (w : Perspective.World) :
  Perspective.use prev w = (w, Ok tt) ->
  (forall cam w1, Perspective.objects (fst (block cam w1)) prev = Perspective.objects w1 prev) ->
  Perspective.window (fst (Perspective.with_activate self block w)) = Perspective.window w.
Proof.
  intros Hsync Hframe.
  assert (Hok : snd (Perspective.use prev w) = Ok tt) by now rewrite Hsync.
  assert (Hw : Perspective.window (fst (Perspective.use prev w)) = Perspective.window w)
    by now rewrite Hsync.
  assert (Hcam : Perspective.current_camera (Perspective.window w) = Some prev).
  { rewrite <- Hw. apply use_current_camera. }
  unfold Perspective.with_activate, Perspective.activate_enter. rewrite Hcam.
  pose proof (use_objects self w) as Ho1.
  destruct (Perspective.use self w) as [w1 [[]|e]]; cbn [fst] in Ho1.
  - specialize (Hframe self w1). destruct (block self w1) as [w2 outcome]. cbn [fst] in Hframe.
    unfold Perspective.activate_exit. cbn [Perspective.use_previous].
    assert (Ho : Perspective.objects w2 prev = Perspective.objects w prev)
      by now rewrite Hframe, Ho1.
    destruct (use_window prev w w2 Ho Hok) as [Hwin _]. rewrite <- Hw, <- Hwin.
    destruct (Perspective.use prev w2) as [w3 [[]|e']]; reflexivity.
  - cbn [Perspective.use_previous].
    assert (Ho : Perspective.objects w1 prev = Perspective.objects w prev) by now rewrite Ho1.
    destruct (use_window prev w w1 Ho Hok) as [Hwin _]. rewrite <- Hw, <- Hwin.
    destruct (Perspective.use prev w1) as [w2 [[]|e']]; reflexivity.
Qed.

Lemma use_default_synced :
  Perspective.use 0%nat (fst (Perspective.use 0%nat world_no_camera))
  = (fst (Perspective.use 0%nat world_no_camera), Ok tt).
Proof.
  rewrite use_idempotent. pose proof (use_default_ok 0%nat) as H.
  destruct (Perspective.use 0%nat world_no_camera) as [w r]. cbn in *. now subst r.
Qed.

Lemma X17_witness :
  let w := fst (Perspective.use 0%nat world_no_camera) in
  Perspective.use 0%nat w = (w, Ok tt) /\
  Perspective.window
    (fst (Perspective.with_activate 1%nat
            (fun _ => Perspective.raise (A := unit) (Exception 7)) w))
  = Perspective.window w.
Proof.
  intros w. split; [exact use_default_synced|].
  apply (X17_activate_restores_window unit 1%nat 0%nat
           (fun _ => Perspective.raise (Exception 7)) w use_default_synced).
  intros cam w1. reflexivity.
Defined.

(** X18: once the scoped activation has entered, its outcome is the
    outcome of the block (its value, or the very exception it raised) if the
    previous projector can be used again at exit; if building its projection
    matrix raises then, that error of the restoring [use] replaces the
    outcome of the block, also an exception of the block. *)
Theorem X18_activate_outcome (A : Type) (self prev : Perspective.ProjRef)
    (block : Perspective.ProjRef -> Perspective.M A) (w : Perspective.World) :
  Perspective.current_camera (Perspective.window w) = Some prev ->
  snd (Perspective.use self w) = Ok tt ->
  let w1 := fst (Perspective.use self w) in
  let w2 := fst (block self w1) in
  (projection_defined (Perspective.objects w2 prev) ->
   snd (Perspective.with_activate self block w) = snd (block self w1)) /\
  (forall e,
     Perspective._generate_projection_matrix (Perspective.objects w2 prev) = Raise e ->
     snd (Perspective.with_activate self block w) = Raise e).
Proof.
  intros Hcam Hok w1 w2. subst w1 w2.
  unfold Perspective.with_activate, Perspective.activate_enter. rewrite Hcam.
  destruct (Perspective.use self w) as [w1 r]. cbn [fst snd] in *. subst r.
  destruct (block self w1) as [w2 outcome]. cbn [fst snd].
  unfold Perspective.activate_exit. cbn [Perspective.use_previous].
  rewrite use_unfold. split.
  - intros Hd. now rewrite (projection_closed_form_ok _ Hd).
  - intros e E. now rewrite E.
Qed.

Lemma X18_witness :
  (projection_defined default_projector /\
   snd (Perspective.with_activate 1%nat
          (fun _ => Perspective.raise (A := unit) (Exception 7)) world_camera_0)
   = Raise (Exception 7)) /\
  (Perspective._generate_projection_matrix flat_projector = Raise ZeroDivisionError /\
   snd (Perspective.with_activate 1%nat flatten_and_raise world_camera_0)
   = Raise ZeroDivisionError).
Proof.
  assert (Hok : snd (Perspective.use 1%nat world_camera_0) = Ok tt).
  { rewrite use_unfold. cbn [Perspective.objects world_camera_0].
    now rewrite (projection_closed_form_ok _ default_projection_defined). }
  assert (Hd : projection_defined
                 (Perspective.objects
                    (fst (Perspective.raise (A := unit) (Exception 7)
                            (fst (Perspective.use 1%nat world_camera_0)))) 0%nat)).
  { cbn [fst Perspective.raise]. rewrite use_objects. exact default_projection_defined. }
  split.
  - split; [exact default_projection_defined|].
    exact (proj1 (X18_activate_outcome unit 1%nat 0%nat
                    (fun _ => Perspective.raise (Exception 7)) world_camera_0 eq_refl Hok)
                 Hd).
  - split; [exact flat_projection_raises|].
    exact (proj2 (X18_activate_outcome unit 1%nat 0%nat flatten_and_raise
                    world_camera_0 eq_refl Hok) ZeroDivisionError flat_projection_raises).
Defined.

(** ** Further properties of the view matrix *)

(** X19: the view matrix sends the camera position to the origin of eye
    space, for every [forward] and [up]. *)
Theorem X19_view_matrix_position_to_origin (self : Perspective.PerspectiveProjector) :
  let '(px, py, pz) := position (Perspective._view self) in
  Pyglet.matvec (Perspective._generate_view_matrix self) (px, py, pz, 1) = (0, 0, 0, 1).
Proof.
  unfold Perspective._generate_view_matrix.
  destruct (Pyglet.normalize (forward _)) as [[f1 f2] f3].
  destruct (Pyglet.normalize (up _)) as [[u1 u2] u3].
  destruct (position _) as [[px py] pz].
  cbn. unfold Pyglet.get. cbn [nth].
  repeat (apply f_equal2); ring.
Qed.

Lemma normalize_dot (u v : Tuple3) :
  magnitude u <> 0 -> magnitude v <> 0 ->
  Pyglet.dot (Pyglet.normalize u) (Pyglet.normalize v)
  = Pyglet.dot u v / (magnitude u * magnitude v).
Proof.
  destruct u as [[u1 u2] u3], v as [[v1 v2] v3]. intros Hu Hv.
  rewrite (normalize_nonzero u1 u2 u3 _ eq_refl Hu), (normalize_nonzero v1 v2 v3 _ eq_refl Hv).
  set (du := magnitude (u1, u2, u3)) in *. set (dv := magnitude (v1, v2, v3)) in *.
  clearbody du dv. cbn. field. auto.
Qed.

Lemma magnitude_of_unit_dot (v : Tuple3) : Pyglet.dot v v = 1 -> magnitude v = 1.
Proof. intros H. rewrite magnitude_dot, H. apply sqrt_1. Qed.

(** X20: when [forward] and [up] are non-zero and perpendicular, whatever
    their lengths, the right, up and forward vectors stored in the view
    matrix are of unit length and pairwise orthogonal. *)
Theorem X20_view_matrix_orthonormal (self : Perspective.PerspectiveProjector) :
  magnitude (forward (Perspective._view self)) <> 0 ->
  magnitude (up (Perspective._view self)) <> 0 ->
  Pyglet.dot (forward (Perspective._view self)) (up (Perspective._view self)) = 0 ->
  let m := Perspective._generate_view_matrix self in
  magnitude (Perspective.basis_right m) = 1 /\
  magnitude (Perspective.basis_up m) = 1 /\
  magnitude (Perspective.basis_forward m) = 1 /\
  Pyglet.dot (Perspective.basis_right m) (Perspective.basis_up m) = 0 /\
  Pyglet.dot (Perspective.basis_right m) (Perspective.basis_forward m) = 0 /\
  Pyglet.dot (Perspective.basis_up m) (Perspective.basis_forward m) = 0.
Proof.
  intros Hf Hu Hperp m.
  pose proof (normalize_unit _ Hf) as Hnf. pose proof (normalize_unit _ Hu) as Hnu.
  pose proof (normalize_dot _ _ Hf Hu) as Hd. rewrite Hperp in Hd.
  replace (0 / _) with 0 in Hd by (field; auto).
  destruct (view_matrix_basis self) as (Hr & Hup & Hfo).
  destruct (view_matrix_orthogonal self) as (Ho1 & Ho2 & Ho3).
  cbv zeta in *. fold m in Hr, Hup, Hfo, Ho1, Ho2, Ho3.
  split; [|split; [|split; [|repeat split; assumption]]].
  - apply magnitude_of_unit_dot. rewrite Hr.
    destruct (Pyglet.normalize (forward _)) as [[f1 f2] f3].
    destruct (Pyglet.normalize (up _)) as [[u1 u2] u3]. cbn in *.
    transitivity ((f1 * f1 + f2 * f2 + f3 * f3) * (u1 * u1 + u2 * u2 + u3 * u3)
                  - (f1 * u1 + f2 * u2 + f3 * u3) ^ 2); [ring|].
    rewrite Hnf, Hnu, Hd. ring.
  - apply magnitude_of_unit_dot. rewrite Hup.
    destruct (Pyglet.normalize (forward _)) as [[f1 f2] f3].
    destruct (Pyglet.normalize (up _)) as [[u1 u2] u3]. cbn in *.
    transitivity (((f1 * f1 + f2 * f2 + f3 * f3) * (u1 * u1 + u2 * u2 + u3 * u3)
                   - (f1 * u1 + f2 * u2 + f3 * u3) ^ 2) * (f1 * f1 + f2 * f2 + f3 * f3));
      [ring|].
    rewrite Hnf, Hnu, Hd. ring.
  - apply magnitude_of_unit_dot. rewrite Hfo. exact Hnf.
Qed.

Lemma magnitude_0_0_m2 : magnitude (0, 0, - 2) = 2.
Proof.
  unfold magnitude. replace (0 ^ 2 + 0 ^ 2 + (- 2) ^ 2) with (2 * 2) by ring.
  apply sqrt_square. lra.
Qed.

Lemma magnitude_0_3_0 : magnitude (0, 3, 0) = 3.
Proof.
  unfold magnitude. replace (0 ^ 2 + 3 ^ 2 + 0 ^ 2) with (3 * 3) by ring.
  apply sqrt_square. lra.
Qed.

Lemma X20_witness :
  let self := Perspective.mkProjector
                (mkCameraData (0, 0, 800, 600)%Z (5, 6, 7) (0, 3, 0) (0, 0, - 2) 1)
                (mkPerspectiveProjectionData (4 / 3) 90 (1 / 10) 1000) in
  magnitude (forward (Perspective._view self)) <> 0 /\
  magnitude (up (Perspective._view self)) <> 0 /\
  Pyglet.dot (forward (Perspective._view self)) (up (Perspective._view self)) = 0 /\
  magnitude (Perspective.basis_right (Perspective._generate_view_matrix self)) = 1 /\
  magnitude (Perspective.basis_up (Perspective._generate_view_matrix self)) = 1.
Proof.
  intros self.
  assert (Hf : magnitude (forward (Perspective._view self)) <> 0).
  { cbn [forward Perspective._view self]. rewrite magnitude_0_0_m2. lra. }
  assert (Hu : magnitude (up (Perspective._view self)) <> 0).
  { cbn [up Perspective._view self]. rewrite magnitude_0_3_0. lra. }
  assert (Hp : Pyglet.dot (forward (Perspective._view self)) (up (Perspective._view self)) = 0).
  { cbn. ring. }
  pose proof (X20_view_matrix_orthonormal self Hf Hu Hp) as (H1 & H2 & _).
  repeat split; assumption.
Defined.

Lemma magnitude_zero (v : Tuple3) : magnitude v = 0 -> v = (0, 0, 0).
Proof.
  destruct v as [[x y] z]. unfold magnitude. intros H.
  apply sqrt_eq_0 in H; [|nra].
  apply tuple3_eq; nra.
Qed.

Lemma magnitude_scale (k : R) (v : Tuple3) :
  0 < k -> magnitude (scale3 k v) = k * magnitude v.
Proof.
  destruct v as [[x y] z]. intros Hk. unfold scale3, magnitude.
  replace ((k * x) ^ 2 + (k * y) ^ 2 + (k * z) ^ 2)
    with (k * k * (x ^ 2 + y ^ 2 + z ^ 2)) by ring.
  rewrite sqrt_mult_alt by nra. rewrite sqrt_square by lra. reflexivity.
Qed.

Lemma normalize_scale (k : R) (v : Tuple3) :
  0 < k -> Pyglet.normalize (scale3 k v) = Pyglet.normalize v.
Proof.
  intros Hk. unfold Pyglet.normalize. rewrite (magnitude_scale k v Hk).
  destruct (Req_dec_T (magnitude v) 0) as [E|Hne].
  - destruct (Req_dec_T (k * magnitude v) 0) as [_|Hne]; [|exfalso; apply Hne; rewrite E; ring].
    rewrite (magnitude_zero v E). cbn. apply tuple3_eq; ring.
  - destruct (Req_dec_T (k * magnitude v) 0) as [E|_].
    + exfalso. apply Rmult_integral in E. destruct E; [lra|contradiction].
    + destruct v as [[x y] z]. cbn [scale3]. apply tuple3_eq; field; split; auto; lra.
Qed.

(** X21: the view matrix depends on the directions of [forward] and [up]
    only: rescaling either by a positive factor gives the same matrix. *)
Theorem X21_view_matrix_scale_invariant (vp : Viewport) (pos u f : Tuple3) (zm kf ku : R)
    (proj : PerspectiveProjectionData) :
  0 < kf -> 0 < ku ->
  Perspective._generate_view_matrix
    (Perspective.mkProjector (mkCameraData vp pos (scale3 ku u) (scale3 kf f) zm) proj) =
  Perspective._generate_view_matrix
    (Perspective.mkProjector (mkCameraData vp pos u f zm) proj).
Proof.
  intros Hkf Hku. unfold Perspective._generate_view_matrix.
  cbn [Perspective._view forward up position].
  now rewrite (normalize_scale kf f Hkf), (normalize_scale ku u Hku).
Qed.

Lemma X21_witness :
  0 < 2 /\ 0 < 3 /\
  Perspective._generate_view_matrix
    (Perspective.mkProjector
       (mkCameraData (0, 0, 800, 600)%Z (5, 6, 7) (scale3 3 (0, 1, 0)) (scale3 2 (0, 0, - 1)) 1)
       (mkPerspectiveProjectionData (4 / 3) 90 (1 / 10) 1000)) =
  Perspective._generate_view_matrix
    (Perspective.mkProjector
       (mkCameraData (0, 0, 800, 600)%Z (5, 6, 7) (0, 1, 0) (0, 0, - 1) 1)
       (mkPerspectiveProjectionData (4 / 3) 90 (1 / 10) 1000)).
Proof.
  split; [lra|]. split; [lra|].
  apply (X21_view_matrix_scale_invariant (0, 0, 800, 600)%Z (5, 6, 7) (0, 1, 0) (0, 0, - 1)
           1 2 3 (mkPerspectiveProjectionData (4 / 3) 90 (1 / 10) 1000)); lra.
Defined.

(** ** Further properties of the unprojection *)

Lemma matmul_shape (a b : Pyglet.Mat4) :
  exists a0 a1 a2 a3 a4 a5 a6 a7 a8 a9 a10 a11 a12 a13 a14 a15,
    Pyglet.matmul a b = [a0; a1; a2; a3; a4; a5; a6; a7; a8; a9; a10; a11; a12; a13; a14; a15].
Proof. unfold Pyglet.matmul. cbn [flat_map map app]. do 16 eexists. reflexivity. Qed.

Lemma tuple4_eq (a b c d a' b' c' d' : R) :
  a = a' -> b = b' -> c = c' -> d = d' -> (a, b, c, d) = (a', b', c', d').
Proof. intros -> -> -> ->. reflexivity. Qed.

(** [invert] undoes the matrix-vector product, on both sides. *)
Lemma matvec_invert (a0 a1 a2 a3 a4 a5 a6 a7 a8 a9 a10 a11 a12 a13 a14 a15 : R)
    (v : Pyglet.Vec4) :
  let m := [a0; a1; a2; a3; a4; a5; a6; a7; a8; a9; a10; a11; a12; a13; a14; a15] in
  Pyglet.det m <> 0 ->
  Pyglet.matvec m (Pyglet.matvec (Pyglet.invert m) v) = v /\
  Pyglet.matvec (Pyglet.invert m) (Pyglet.matvec m v) = v.
Proof.
  intros m Hd. destruct v as [[[x y] z] t]. unfold Pyglet.invert.
  destruct (Req_dec_T (Pyglet.det m) 0) as [E|_]; [contradiction|].
  set (d := Pyglet.det m) in *.
  assert (Hdd : d = Pyglet.det m) by reflexivity.
  unfold Pyglet.det, Pyglet.get, m in Hdd. cbn [nth] in Hdd.
  unfold Pyglet.matvec, Pyglet.row, Pyglet.get, m. cbn -[d].
  unfold Pyglet.get. cbn [nth].
  split; apply tuple4_eq; field_simplify_eq; try exact Hd; rewrite Hdd; ring.
Qed.

Lemma map_coordinate_unfold (self : Perspective.PerspectiveProjector)
    (screen_coordinate : Tuple2) (M : Pyglet.Mat4) :
  viewport_defined self -> combined_matrix self = Ok M ->
  Perspective.map_coordinate self screen_coordinate
  = Ok (xy (Pyglet.matvec (Pyglet.invert M) (ndc self screen_coordinate))).
Proof.
  unfold viewport_defined, combined_matrix, Perspective.map_coordinate, ndc.
  destruct (viewport (Perspective._view self)) as [[[vx vy] vw] vh]. intros [Hw Hh].
  rewrite (screen_axis_ok _ vx vw Hw), (screen_axis_ok _ vy vh Hh). cbn [rbind].
  destruct (Perspective._generate_projection_matrix self) as [P|e]; [|discriminate].
  cbn [rbind]. intros H. injection H as <-.
  destruct (Pyglet.matvec _ _) as [[[m0 m1] m2] m3]. reflexivity.
Qed.

(** X22: at depth 0, [map_coordinate_at_depth] is [map_coordinate]: same
    coordinates, same errors. *)
Theorem X22_map_coordinate_at_depth_zero (self : Perspective.PerspectiveProjector)
    (screen_coordinate : Tuple2) :
  Perspective.map_coordinate_at_depth self screen_coordinate 0
  = Perspective.map_coordinate self screen_coordinate.
Proof.
  unfold Perspective.map_coordinate_at_depth, Perspective.map_coordinate.
  destruct (viewport (Perspective._view self)) as [[[vx vy] vw] vh].
  destruct (Perspective.screen_axis _ vx vw) as [sx|e1]; [|reflexivity].
  destruct (Perspective.screen_axis _ vy vh) as [sy|e2]; [|reflexivity].
  cbn [rbind].
  destruct (Perspective._generate_projection_matrix self) as [P|e3] eqn:E; [|reflexivity].
  cbn [rbind]. unfold pydiv.
  destruct (Req_dec_T _ 0) as [E0|Hne].
  - assert (Hnf : near (Perspective._projection self) = far (Perspective._projection self))
      by lra.
    rewrite (generate_projection_near_far self Hnf) in E. discriminate.
  - cbn [rbind].
    replace (2 * 0 / (far (Perspective._projection self)
                      - near (Perspective._projection self)) - 1) with (- 1)
      by (field; exact Hne).
    reflexivity.
Qed.

Lemma map_coordinate_fails_iff (self : Perspective.PerspectiveProjector)
    (screen_coordinate : Tuple2) :
  Perspective.map_coordinate self screen_coordinate = Raise ZeroDivisionError
  <-> (~ viewport_defined self \/
       exists e, Perspective._generate_projection_matrix self = Raise e).
Proof.
  unfold Perspective.map_coordinate, viewport_defined.
  destruct (viewport (Perspective._view self)) as [[[vx vy] vw] vh].
  unfold Perspective.screen_axis at 1, pydiv at 1.
  destruct (Req_dec_T (IZR vw) 0) as [Ew|Hw]; cbn [rbind].
  { split; [intros _; left; tauto|reflexivity]. }
  unfold Perspective.screen_axis at 1, pydiv at 1.
  destruct (Req_dec_T (IZR vh) 0) as [Eh|Hh]; cbn [rbind].
  { split; [intros _; left; tauto|reflexivity]. }
  destruct (Perspective._generate_projection_matrix self) as [P|e] eqn:EP; cbn [rbind].
  - destruct (Pyglet.matvec _ _) as [[[m0 m1] m2] m3]. split; [discriminate|].
    intros [Hv|[e He]]; [exfalso; apply Hv; split; assumption|discriminate].
  - rewrite (generate_projection_raises self e EP). split; [|reflexivity].
    intros _. right. eexists. reflexivity.
Qed.

(** X23: [map_coordinate] fails exactly when the viewport has zero width
    or height or [_generate_projection_matrix] raises, always with
    [ZeroDivisionError], and whether it fails does not depend on the screen
    coordinate. *)
Theorem X23_map_coordinate_error (self : Perspective.PerspectiveProjector)
    (screen_coordinate : Tuple2) :
  (Perspective.map_coordinate self screen_coordinate = Raise ZeroDivisionError
   <-> (~ viewport_defined self \/
        exists e, Perspective._generate_projection_matrix self = Raise e)) /\
  (forall e, Perspective.map_coordinate self screen_coordinate = Raise e ->
             e = ZeroDivisionError).
Proof.
  split.
  - apply map_coordinate_fails_iff.
  - apply map_coordinate_raises.
Qed.

Lemma X23_witness :
  (~ viewport_defined flat_projector \/
   exists e, Perspective._generate_projection_matrix flat_projector = Raise e) /\
  Perspective.map_coordinate flat_projector (400, 300) = Raise ZeroDivisionError.
Proof.
  assert (H : ~ viewport_defined flat_projector \/
              exists e, Perspective._generate_projection_matrix flat_projector = Raise e).
  { right. exists ZeroDivisionError. exact flat_projection_raises. }
  split; [exact H|].
  exact (proj2 (proj1 (X23_map_coordinate_error flat_projector (400, 300))) H).
Defined.

(** X24: when the viewport is non-degenerate and [projection @ view] is
    invertible, there is exactly one 4-vector that the combined matrix sends
    to the screen point in normalised device coordinates on the near plane,
    and [map_coordinate] returns its first two components. *)
Theorem X24_map_coordinate_unprojects (self : Perspective.PerspectiveProjector)
    (screen_coordinate : Tuple2) (M : Pyglet.Mat4) :
  viewport_defined self -> combined_matrix self = Ok M -> Pyglet.det M <> 0 ->
  exists u,
    Pyglet.matvec M u = ndc self screen_coordinate /\
    (forall u', Pyglet.matvec M u' = ndc self screen_coordinate -> u' = u) /\
    Perspective.map_coordinate self screen_coordinate = Ok (xy u).
Proof.
  intros Hv HM Hd.
  rewrite (map_coordinate_unfold self screen_coordinate M Hv HM).
  assert (Hs : exists P V, M = Pyglet.matmul P V).
  { unfold combined_matrix in HM.
    destruct (Perspective._generate_projection_matrix self) as [P|e]; [|discriminate].
    cbn [rbind] in HM. injection HM as <-. eauto. }
  destruct Hs as (P & V & ->).
  destruct (matmul_shape P V)
    as (a0 & a1 & a2 & a3 & a4 & a5 & a6 & a7 & a8 & a9 & a10 & a11 & a12 & a13 & a14 & a15 & HMe).
  rewrite HMe in *.
  exists (Pyglet.matvec (Pyglet.invert
            [a0; a1; a2; a3; a4; a5; a6; a7; a8; a9; a10; a11; a12; a13; a14; a15])
            (ndc self screen_coordinate)).
  split; [|split; [|reflexivity]].
  - apply (matvec_invert a0 a1 a2 a3 a4 a5 a6 a7 a8 a9 a10 a11 a12 a13 a14 a15 _ Hd).
  - intros u' Hu'. rewrite <- Hu'. symmetry.
    apply (matvec_invert a0 a1 a2 a3 a4 a5 a6 a7 a8 a9 a10 a11 a12 a13 a14 a15 _ Hd).
Qed.

Lemma magnitude_0_1_0 : magnitude (0, 1, 0) = 1.
Proof.
  unfold magnitude. replace (0 ^ 2 + 1 ^ 2 + 0 ^ 2) with 1 by ring. apply sqrt_1.
Qed.

Lemma axis_view_matrix (vp : Viewport) (px py pz zm : R) (proj : PerspectiveProjectionData) :
  Perspective._generate_view_matrix
    (Perspective.mkProjector (mkCameraData vp (px, py, pz) (0, 1, 0) (0, 0, - 1) zm) proj)
  = [ 1; 0; 0; 0;  0; 1; 0; 0;  0; 0; 1; 0;  - px; - py; - pz; 1 ].
Proof.
  unfold Perspective._generate_view_matrix.
  cbn [forward up position Perspective._view].
  rewrite (normalize_nonzero 0 0 (- 1) 1 magnitude_0_0_m1) by lra.
  rewrite (normalize_nonzero 0 1 0 1 magnitude_0_1_0) by lra.
  cbn. list_eq_field.
Qed.

Lemma axis_combined_matrix (vp : Viewport) (px py pz zm : R) (proj : PerspectiveProjectionData) :
  let self := Perspective.mkProjector
                (mkCameraData vp (px, py, pz) (0, 1, 0) (0, 0, - 1) zm) proj in
  projection_defined self ->
  combined_matrix self =
  Ok (axis_combined (1 / (tan (fov proj / zm * PI / 360) * aspect proj))
                    (1 / tan (fov proj / zm * PI / 360))
                    (- (far proj + near proj) / (far proj - near proj))
                    (- 2 * far proj * near proj / (far proj - near proj)) px py pz).
Proof.
  intros self Hd. unfold combined_matrix.
  rewrite (projection_closed_form_ok self Hd). cbn [rbind]. apply f_equal.
  unfold self. rewrite axis_view_matrix. unfold projection_closed_form.
  cbn [Perspective._view Perspective._projection zoom fov aspect near far].
  unfold axis_combined. cbn. unfold Pyglet.get. cbn [nth].
  repeat (apply f_equal2; [ring|]). reflexivity.
Qed.

Lemma axis_combined_det (w h q qn px py pz : R) :
  Pyglet.det (axis_combined w h q qn px py pz) = w * h * qn.
Proof. unfold Pyglet.det, axis_combined, Pyglet.get. cbn [nth]. ring. Qed.

(** The vector that the combined matrix sends to the centre of the near
    plane in normalised device coordinates. *)
Lemma axis_combined_centre (w h px py pz n f : R) :
  n <> 0 -> f - n <> 0 ->
  Pyglet.matvec (axis_combined w h (- (f + n) / (f - n)) (- 2 * f * n / (f - n)) px py pz)
                (px / n, py / n, pz / n - 1, 1 / n)
  = (0, 0, - 1, 1).
Proof.
  intros Hn Hd. unfold Pyglet.matvec, axis_combined, Pyglet.row, Pyglet.get. cbn.
  apply tuple4_eq; field; auto.
Qed.

Lemma unproject_unique (a0 a1 a2 a3 a4 a5 a6 a7 a8 a9 a10 a11 a12 a13 a14 a15 : R)
    (u v : Pyglet.Vec4) :
  let m := [a0; a1; a2; a3; a4; a5; a6; a7; a8; a9; a10; a11; a12; a13; a14; a15] in
  Pyglet.det m <> 0 -> Pyglet.matvec m u = v -> Pyglet.matvec (Pyglet.invert m) v = u.
Proof.
  intros m Hd <-.
  apply (matvec_invert a0 a1 a2 a3 a4 a5 a6 a7 a8 a9 a10 a11 a12 a13 a14 a15 u Hd).
Qed.

Lemma projection_defined_parts (self : Perspective.PerspectiveProjector) :
  projection_defined self ->
  near (Perspective._projection self) <> 0 /\
  tan (fov (Perspective._projection self) / zoom (Perspective._view self) * PI / 360) <> 0.
Proof.
  intros (_ & _ & Ht & _). split; intros E; apply Ht; rewrite E; ring.
Qed.

(** X25: [map_coordinate] applies the inverse matrix without dividing by
    the fourth component: for a camera at [(px, py, pz)] that looks down the
    negative z axis with [up = (0, 1, 0)], the centre of the viewport is
    mapped to [(px / near, py / near)]. *)
Theorem X25_map_coordinate_centre (vx vy vw vh : Z) (px py pz zm : R)
    (proj : PerspectiveProjectionData) :
  let self := Perspective.mkProjector
                (mkCameraData (vx, vy, vw, vh) (px, py, pz) (0, 1, 0) (0, 0, - 1) zm) proj in
  IZR vw <> 0 -> IZR vh <> 0 -> projection_defined self -> far proj <> 0 ->
  Perspective.map_coordinate self (IZR vx + IZR vw / 2, IZR vy + IZR vh / 2)
  = Ok (px / near proj, py / near proj).
Proof.
  intros self Hw Hh Hd Hf.
  destruct (projection_defined_parts self Hd) as [Hn Ht].
  destruct Hd as (Hz & Hdepth & Hnt & Ha).
  cbn [self Perspective._view Perspective._projection zoom] in Hn, Ht, Hz, Hdepth, Hnt, Ha.
  assert (Hd : projection_defined self) by (repeat split; assumption).
  rewrite (map_coordinate_unfold self _ _ (conj Hw Hh)
             (axis_combined_matrix (vx, vy, vw, vh) px py pz zm proj Hd)).
  assert (Hndc : ndc self (IZR vx + IZR vw / 2, IZR vy + IZR vh / 2) = (0, 0, - 1, 1)).
  { unfold ndc. cbn. apply tuple4_eq; try reflexivity; field; assumption. }
  rewrite Hndc. unfold axis_combined at 1.
  rewrite (unproject_unique _ _ _ _ _ _ _ _ _ _ _ _ _ _ _ _
             (px / near proj, py / near proj, pz / near proj - 1, 1 / near proj)).
  - reflexivity.
  - fold (axis_combined (1 / (tan (fov proj / zm * PI / 360) * aspect proj))
                    (1 / tan (fov proj / zm * PI / 360))
                    (- (far proj + near proj) / (far proj - near proj))
                    (- 2 * far proj * near proj / (far proj - near proj)) px py pz).
    rewrite axis_combined_det. intros E.
    assert (Hprod : tan (fov proj / zm * PI / 360) * aspect proj <> 0)
      by (apply Rmult_integral_contrapositive; tauto).
    assert (E' : - 2 * far proj * near proj = 0).
    { apply (Rmult_eq_reg_l (1 / (tan (fov proj / zm * PI / 360) * aspect proj)
                             * (1 / tan (fov proj / zm * PI / 360))
                             / (far proj - near proj))).
      - rewrite Rmult_0_r. rewrite <- E. field. repeat split; assumption.
      - intros E0. apply (Rmult_eq_compat_r
                            ((tan (fov proj / zm * PI / 360) * aspect proj)
                             * tan (fov proj / zm * PI / 360)
                             * (far proj - near proj))) in E0.
        rewrite Rmult_0_l in E0. field_simplify in E0; [lra|repeat split; assumption]. }
    apply Rmult_integral in E'. destruct E' as [E'|E']; [|contradiction].
    apply Rmult_integral in E'. destruct E' as [E'|E']; [lra|contradiction].
  - fold (axis_combined (1 / (tan (fov proj / zm * PI / 360) * aspect proj))
                    (1 / tan (fov proj / zm * PI / 360))
                    (- (far proj + near proj) / (far proj - near proj))
                    (- 2 * far proj * near proj / (far proj - near proj)) px py pz).
    apply axis_combined_centre; assumption.
Qed.

Lemma default_combined_matrix : combined_matrix default_projector = Ok default_combined.
Proof.
  exact (axis_combined_matrix (0, 0, 800, 600)%Z (800 / 2) (600 / 2) 0 1
           (mkPerspectiveProjectionData (800 / 600) 90 (1 / 10) 1000)
           default_projection_defined).
Qed.

Lemma default_combined_det : Pyglet.det default_combined <> 0.
Proof.
  unfold default_combined. rewrite axis_combined_det.
  replace (90 / 1 * PI / 360) with (PI / 4) by field. rewrite tan_PI4.
  intros E. field_simplify in E. lra.
Qed.

Lemma default_viewport_defined : viewport_defined default_projector.
Proof. cbn. split; lra. Qed.

Lemma X24_witness :
  viewport_defined default_projector /\
  combined_matrix default_projector = Ok default_combined /\
  Pyglet.det default_combined <> 0 /\
  exists u,
    Pyglet.matvec default_combined u = ndc default_projector (200, 100) /\
    (forall u', Pyglet.matvec default_combined u' = ndc default_projector (200, 100) -> u' = u) /\
    Perspective.map_coordinate default_projector (200, 100) = Ok (xy u).
Proof.
  split; [exact default_viewport_defined|].
  split; [exact default_combined_matrix|].
  split; [exact default_combined_det|].
  exact (X24_map_coordinate_unprojects default_projector (200, 100) default_combined
           default_viewport_defined default_combined_matrix default_combined_det).
Defined.

Lemma X25_witness :
  IZR 800 <> 0 /\ IZR 600 <> 0 /\ projection_defined default_projector /\
  far (Perspective._projection default_projector) <> 0 /\
  Perspective.map_coordinate default_projector (IZR 0 + IZR 800 / 2, IZR 0 + IZR 600 / 2)
  = Ok (800 / 2 / (1 / 10), 600 / 2 / (1 / 10)).
Proof.
  assert (H8 : IZR 800 <> 0) by lra.
  assert (H6 : IZR 600 <> 0) by lra.
  assert (Hf : far (Perspective._projection default_projector) <> 0) by (cbn; lra).
  split; [exact H8|]. split; [exact H6|].
  split; [exact default_projection_defined|]. split; [exact Hf|].
  exact (X25_map_coordinate_centre 0 0 800 600 (800 / 2) (600 / 2) 0 1
           (mkPerspectiveProjectionData (800 / 600) 90 (1 / 10) 1000)
           H8 H6 default_projection_defined Hf).
Defined.

(** ** Construction of a projector *)

(** X26: for a window of non-zero width and height, constructing a
    projector without arguments succeeds with the view and projection data of
    [default_projector] scaled to the window: the projection matrix can be
    built and the view matrix is the translation by minus the window centre.
    For a window of height 0 the construction raises [ZeroDivisionError]
    unless a projection is passed. *)
Theorem X26_projector_init_defaults (width height : Z) :
  (IZR width <> 0 -> IZR height <> 0 ->
   exists self,
     projector_init width height None None = Ok self /\
     viewport_defined self /\ projection_defined self /\
     Perspective._generate_view_matrix self =
       [ 1; 0; 0; 0;  0; 1; 0; 0;  0; 0; 1; 0;
         - (IZR width / 2); - (IZR height / 2); - 0; 1 ]) /\
  (IZR height = 0 ->
   forall view, projector_init width height view None = Raise ZeroDivisionError) /\
  (forall view proj,
     exists self, projector_init width height view (Some proj) = Ok self /\
                  Perspective._projection self = proj).
Proof.
  split; [|split].
  - intros Hw Hh. unfold projector_init, pydiv.
    destruct (Req_dec_T (IZR height) 0) as [E|_]; [contradiction|]. cbn [rbind].
    eexists. split; [reflexivity|]. split; [|split].
    + cbn. split; assumption.
    + unfold projection_defined. cbn.
      replace (90 / 1 * PI / 360) with (PI / 4) by field. rewrite tan_PI4.
      repeat split; try lra.
      intros E. apply Hw.
      replace (IZR width) with (IZR width / IZR height * IZR height) by (field; assumption).
      rewrite E. ring.
    + apply axis_view_matrix.
  - intros Hh view. unfold projector_init, pydiv.
    destruct (Req_dec_T (IZR height) 0) as [_|Hne]; [reflexivity|contradiction].
  - intros view proj. unfold projector_init. cbn [rbind]. eexists. split; reflexivity.
Qed.

Lemma X26_witness :
  IZR 800 <> 0 /\ IZR 600 <> 0 /\
  exists self,
    projector_init 800 600 None None = Ok self /\
    viewport_defined self /\ projection_defined self /\
    Perspective._generate_view_matrix self =
      [ 1; 0; 0; 0;  0; 1; 0; 0;  0; 0; 1; 0;
        - (IZR 800 / 2); - (IZR 600 / 2); - 0; 1 ].
Proof.
  assert (H8 : IZR 800 <> 0) by lra.
  assert (H6 : IZR 600 <> 0) by lra.
  split; [exact H8|]. split; [exact H6|].
  exact (proj1 (X26_projector_init_defaults 800 600) H8 H6).
Defined.

(** ** Further properties of the camera stack *)














